(** * sxcv: the CE316/866 OpenCV convenience wrappers, embedded in Rocq

    A shallow embedding of [computer_vision/01-introduction/sxcv.py]:
    the synthetic fixtures ([arrowhead], [create_mask]), the describer
    ([describe]), the pixel-region formatter ([examine]), the module-level
    debug state ([debug_set], [debugging], [debug_on], [debug_off]) and the
    display dispatcher ([ddisplay], [display], [display_sixel]).

    Pure routines return a [res]: either the value or the Python exception
    they raise.  Routines with side effects are state transformers over a
    [World] that holds the module globals, the file system and the list of
    externally visible effects. *)

From Stdlib Require Import ZArith String Ascii List Bool Lia.
From stdpp Require Import base tactics option list gmap strings pretty.

Local Open Scope string_scope.
Local Open Scope Z_scope.

(* ------------------------------------------------------------------------- *)
(** ** Exceptions and results *)

Inductive exn : Type :=
| ValueError (msg : string)
| IndexError
| TypeError
| FileNotFoundError (path : string)
| CvError.

Inductive res (A : Type) : Type :=
| Ok (a : A)
| Raise (e : exn).
Arguments Ok {A} a.
Arguments Raise {A} e.

Global Instance res_ret : MRet res := fun _ a => Ok a.
Global Instance res_bind : MBind res := fun _ _ k m =>
  match m with
  | Ok a => k a
  | Raise e => Raise e
  end.

Global Instance res_fmap : FMap res := fun _ _ f m =>
  match m with
  | Ok a => Ok (f a)
  | Raise e => Raise e
  end.

(** [for x in xs: s = body s x], stopping at the first exception. *)
Fixpoint for_each {A T} (xs : list A) (body : T -> A -> res T) (s : T) : res T :=
  match xs with
  | [] => Ok s
  | x :: xs' => s' ← body s x; for_each xs' body s'
  end.

(* ------------------------------------------------------------------------- *)
(** ** Python string formatting *)

Module Fmt.

(** ["%d" % z] *)
Definition d (z : Z) : string := pretty z.

(** [c * n] for a one-character string. *)
Fixpoint repeat (c : ascii) (n : nat) : string :=
  match n with
  | O => ""
  | S n' => String c (repeat c n')
  end.

(** [s.rjust(w)]: pad with blanks on the left up to [w] characters; a
    string that is already [w] long or longer is returned as it is. *)
Definition rjust (w : nat) (s : string) : string :=
  repeat " " (w - String.length s) +:+ s.

(** ["%4d" % z] and ["%5d" % z] *)
Definition d4 (z : Z) : string := rjust 4 (d z).
Definition d5 (z : Z) : string := rjust 5 (d z).

(** [s.lower()] on the ASCII letters. *)
Definition lower_ascii (c : ascii) : ascii :=
  let n := nat_of_ascii c in
  if (Nat.leb 65 n && Nat.leb n 90)%bool then ascii_of_nat (n + 32) else c.

Fixpoint lower (s : string) : string :=
  match s with
  | "" => ""
  | String c s' => String (lower_ascii c) (lower s')
  end.

(** [needle in haystack] for strings, as a proposition. *)
Definition contains (haystack needle : string) : Prop :=
  exists pre post, haystack = pre +:+ needle +:+ post.

End Fmt.

(* ------------------------------------------------------------------------- *)
(** ** Images: numpy arrays *)

Inductive dtype : Type := uint8 | int_.

(** [str(dtype)]; numpy's ["int"] is the platform's C long, [int64] on the
    Linux and macOS hosts the module's notes are written for. *)
Definition dtype_str (t : dtype) : string :=
  match t with
  | uint8 => "uint8"
  | int_ => "int64"
  end.

(** Storing a Python integer in an array of the given sample type. *)
Definition cast (t : dtype) (v : Z) : Z :=
  match t with
  | uint8 => v mod 256
  | int_ => (v + 2 ^ 63) mod 2 ^ 64 - 2 ^ 63
  end.

(** An array is its shape, its sample type and its samples in row-major
    order. *)
Record ndarray : Type := mk_ndarray {
  shape : list Z;
  dtype_of : dtype;
  data : list Z
}.

Definition size_of (shp : list Z) : Z := fold_right Z.mul 1 shp.

Definition well_formed (im : ndarray) : Prop :=
  Forall (fun n => 0 <= n) (shape im) /\
  Z.of_nat (length (data im)) = size_of (shape im).

(** [numpy.array (rows, dtype=t)] for a list of equally long rows. *)
Definition array2 (rows : list (list Z)) (t : dtype) : ndarray :=
  {| shape := [Z.of_nat (length rows);
               Z.of_nat (length (hd [] rows))];
     dtype_of := t;
     data := map (cast t) (concat rows) |}.

(** [len (im.shape)] *)
Definition rank (im : ndarray) : Z := Z.of_nat (length (shape im)).

(** [im.shape[i]] for a literal, non-negative [i]; a tuple index out of
    range raises [IndexError]. *)
Definition shape_at (im : ndarray) (i : nat) : res Z :=
  match nth_error (shape im) i with
  | Some n => Ok n
  | None => Raise IndexError
  end.

(** One subscript along an axis of extent [n]: negative subscripts count
    from the end, anything outside [-n .. n-1] raises [IndexError]. *)
Definition norm_index (n i : Z) : res Z :=
  if (0 <=? i) && (i <? n) then Ok i
  else if (- n <=? i) && (i <? 0) then Ok (i + n)
  else Raise IndexError.

Fixpoint offset (shp idx : list Z) (acc : Z) : res Z :=
  match shp, idx with
  | [], [] => Ok acc
  | n :: shp', i :: idx' =>
      j ← norm_index n i; offset shp' idx' (acc * n + j)
  | [], _ :: _ => Raise IndexError   (* too many indices for array *)
  | _ :: _, [] => Raise TypeError    (* a sub-array, which "%4d" rejects *)
  end.

(** [im[i0, i1, ...]] read as a scalar. *)
Definition getitem (im : ndarray) (idx : list Z) : res Z :=
  k ← offset (shape im) idx 0;
  match nth_error (data im) (Z.to_nat k) with
  | Some v => Ok v
  | None => Raise IndexError
  end.

(** [range (lo, hi)] *)
Definition range (lo hi : Z) : list Z :=
  map (fun k => lo + Z.of_nat k) (seq 0 (Z.to_nat (hi - lo))).

(* ------------------------------------------------------------------------- *)
(** ** Synthetic fixtures *)

Definition arrowhead : ndarray :=
  array2 [
    [0;   0;   0;   0;   0;   0;   0;   0;   0];
    [0;   0;   0;   0; 255;   0;   0;   0;   0];
    [0;   0;   0; 255; 255; 255;   0;   0;   0];
    [0;   0; 255; 255; 255; 255; 255;   0;   0];
    [0;   0;   0;   0; 255;   0;   0;   0;   0];
    [0;   0;   0;   0; 255;   0;   0;   0;   0];
    [0;   0;   0;   0; 255;   0;   0;   0;   0];
    [0;   0;   0;   0; 255;   0;   0;   0;   0];
    [0;   0;   0;   0; 255;   0;   0;   0;   0];
    [0;   0;   0;   0;   0;   0;   0;   0;   0]
  ] uint8.

Definition create_mask (name : string) : res ndarray :=
  if String.eqb name "blur3" then
    Ok (array2 [
      [1; 1; 1];
      [1; 1; 1];
      [1; 1; 1]
    ] int_)
  else if String.eqb name "blur5" then
    Ok (array2 [
      [1; 1; 1; 1; 1];
      [1; 1; 1; 1; 1];
      [1; 1; 1; 1; 1];
      [1; 1; 1; 1; 1];
      [1; 1; 1; 1; 1]
    ] int_)
  else if String.eqb name "laplacian" then
    Ok (array2 [
      [1;  1; 1];
      [1; -1; 1];
      [1;  1; 1]
    ] int_)
  else
    Raise (ValueError ("I don't know how to generate a '" +:+ name +:+ "' mask!")).

(* ------------------------------------------------------------------------- *)
(** ** describe *)

(** [a, b = t] and [a, b, c = t] on a tuple. *)
Definition unpack2 (t : list Z) : res (Z * Z) :=
  match t with
  | [a; b] => Ok (a, b)
  | _ => Raise (ValueError "wrong number of values to unpack")
  end.

Definition unpack3 (t : list Z) : res (Z * Z * Z) :=
  match t with
  | [a; b; c] => Ok (a, b, c)
  | _ => Raise (ValueError "wrong number of values to unpack")
  end.

Definition describe (im : ndarray) (title : string) : res string :=
  let text := "" in
  let ns := rank im in
  '(ny, nx, channels) ←
    (if ns =? 2 then
       (* A two-element shape means a monochrome image. *)
       '(ny, nx) ← unpack2 (shape im);
       mret (ny, nx, "is monochrome")
     else if ns =? 3 then
       (* A three-element shape means a multi-channel image. *)
       '(ny, nx, nc) ← unpack3 (shape im);
       mret (ny, nx, "has " +:+ Fmt.d nc +:+ " channels")
     else
       Raise (ValueError ("I have a '" +:+ Fmt.d ns +:+ "'-dimensional image!")));
  let text := text +:+ title +:+ " " +:+ channels +:+ " of size " +:+ Fmt.d ny
                +:+ " rows x " +:+ Fmt.d nx +:+ " columns with "
                +:+ dtype_str (dtype_of im) +:+ " pixels." in
  mret text.

(* ------------------------------------------------------------------------- *)
(** ** examine *)

(** The newline character. *)
Definition nl : string := String "010"%char "".

(** The part of [examine] that works out the defaults and the region to
    display. *)
Record region : Type := mk_region {
  r_ny : Z; r_nx : Z; r_nc : Z;
  r_aty : Z; r_atx : Z;
  r_ylo : Z; r_yhi : Z; r_rows : Z;
  r_xlo : Z; r_xhi : Z; r_cols : Z
}.

Definition examine_region (im : ndarray) (aty atx : option Z) (rows cols : Z)
  : res region :=
  (* Work out the default values of arguments. *)
  ny ← shape_at im 0;
  nx ← shape_at im 1;
  nc ← (if rank im <? 3 then mret 0 else shape_at im 2);
  let aty := match aty with None => ny / 2 | Some v => v end in
  let atx := match atx with None => nx / 2 | Some v => v end in
  (* Work out the region to display. *)
  let ylo := Z.max (aty - rows / 2) 0 in
  let yhi := Z.min (ylo + rows) ny in
  let rows := yhi - ylo in
  let xlo := Z.max (atx - cols / 2) 0 in
  let xhi := Z.min (xlo + cols) nx in
  let cols := xhi - xlo in
  mret (mk_region ny nx nc aty atx ylo yhi rows xlo xhi cols).

Definition start : string := "       ".

(** The title, the line about the region, the column numbers and the rule
    under them. *)
Definition examine_heading (r : region) (title : option string) : string :=
  let text := "" in
  let text := match title with
              | Some t => text +:+ t +:+ nl
              | None => text
              end in
  let channels := if r_nc r =? 0 then "monochrome"
                  else Fmt.d (r_nc r) +:+ "-channel" in
  let text := text +:+ "[" +:+ Fmt.d (r_rows r) +:+ " x " +:+ Fmt.d (r_cols r)
                +:+ " region of " +:+ Fmt.d (r_ny r) +:+ " x " +:+ Fmt.d (r_nx r)
                +:+ "-pixel " +:+ channels +:+ " image at ("
                +:+ Fmt.d (r_aty r) +:+ "," +:+ Fmt.d (r_atx r) +:+ ")]:" +:+ nl in
  (* Generate the header line and add it to text. *)
  let line := fold_left (fun line x => line +:+ Fmt.d4 x)
                        (range (r_xlo r) (r_xhi r)) "" in
  text +:+ start +:+ line +:+ nl
       +:+ start +:+ Fmt.repeat "-" (String.length line) +:+ nl.

(** The pixels of one row of one channel; [sub] is the subscript list that
    follows the row, [[x]] or [[x; c]]. *)
Definition examine_pixels (im : ndarray) (r : region) (y : Z)
    (sub : Z -> list Z) (text : string) : res string :=
  for_each (range (r_xlo r) (r_xhi r))
    (fun text x => v ← getitem im (y :: sub x); mret (text +:+ Fmt.d4 v)) text.

(** The rows of the region, appended to [text]. *)
Definition examine_body (im : ndarray) (r : region) (text : string) : res string :=
  for_each (range (r_ylo r) (r_yhi r))
    (fun text y =>
       let text := text +:+ Fmt.d5 y +:+ "| " in
       if r_nc r =? 0 then
         (* Monochrome so use two subscripts. *)
         text ← examine_pixels im r y (fun x => [x]) text;
         mret (text +:+ nl)
       else
         (* Multi-channel so use three subscripts. *)
         for_each (range 0 (r_nc r))
           (fun text c =>
              let text := if 0 <? c
                          then text +:+ substring 0 (String.length start - 2) start
                                    +:+ "| "
                          else text in
              text ← examine_pixels im r y (fun x => [x; c]) text;
              mret (text +:+ nl)) text) text.

Definition examine (im : ndarray) (aty atx : option Z) (rows cols : Z)
    (title : option string) : res string :=
  r ← examine_region im aty atx rows cols;
  examine_body im r (examine_heading r title).

(** [examine (im)]: every optional argument left at its default. *)
Definition examine_default (im : ndarray) : res string :=
  examine im None None 15 15 None.

(* ------------------------------------------------------------------------- *)
(** ** The world the effectful routines act on *)

(** What the routines do to their surroundings, in the order it happens.
    Files carry the inode they were created with, so that two files that
    successively bear one name are told apart. *)
Inductive effect : Type :=
| Print (line : string)
| FileCreate (path : string) (inode : nat)
| FileUnlink (path : string) (inode : nat)
| Exec (cmd : string) (status : Z)
| Imshow (title : string) (im : ndarray)
| WaitKey (delay : Z)
| DestroyWindow (title : string).

Record World : Type := mk_World {
  DEBUG : bool;                 (* module global *)
  ENVIRONMENT : list string;    (* module global *)
  systype : string;             (* module global, platform.system () *)
  argv0 : string;               (* sys.argv[0] *)
  files : gmap string nat;      (* the file system: path to inode *)
  next_inode : nat;
  effects : list effect
}.

Definition set_DEBUG (v : bool) (w : World) : World :=
  mk_World v (ENVIRONMENT w) (systype w) (argv0 w) (files w) (next_inode w)
           (effects w).

Definition emit (e : effect) (w : World) : World :=
  mk_World (DEBUG w) (ENVIRONMENT w) (systype w) (argv0 w) (files w)
           (next_inode w) (effects w ++ [e]).

Definition set_files (fs : gmap string nat) (w : World) : World :=
  mk_World (DEBUG w) (ENVIRONMENT w) (systype w) (argv0 w) fs (next_inode w)
           (effects w).

Definition bump_inode (w : World) : World :=
  mk_World (DEBUG w) (ENVIRONMENT w) (systype w) (argv0 w) (files w)
           (S (next_inode w)) (effects w).

(** Computations that read and change the world and may raise; the world
    as it was when the exception came up is kept. *)
Definition M (A : Type) : Type := World -> World * res A.

Global Instance M_ret : MRet M := fun _ a w => (w, Ok a).
Global Instance M_bind : MBind M := fun _ _ k m w =>
  match m w with
  | (w', Ok a) => k a w'
  | (w', Raise e) => (w', Raise e)
  end.

Definition get {A} (f : World -> A) : M A := fun w => (w, Ok (f w)).
Definition modify (f : World -> World) : M unit := fun w => (f w, Ok tt).
Definition raise {A} (e : exn) : M A := fun w => (w, Raise e).

(** *** Module initialisation *)

Definition key : string := "SXCV".

(** The module body: [environ] is [os.environ], [system] is what
    [platform.system ()] returns.  [val.split ()] breaks the value at runs of
    ASCII white space. *)
Definition module_init (environ : gmap string string) (system : string)
    (argv0 : string) (fs : gmap string nat) (inode : nat) : World :=
  let DEBUG := false in
  match environ !! key with
  | Some v =>
      let val := Fmt.lower v in
      let ENVIRONMENT := String.words val in
      let DEBUG := if bool_decide ("debug" ∈ ENVIRONMENT) then true else DEBUG in
      mk_World DEBUG ENVIRONMENT system argv0 fs inode []
  | None => mk_World DEBUG [] system argv0 fs inode []
  end.

(* ------------------------------------------------------------------------- *)
(** ** Debugging support *)

Definition debug_set (value : bool) : M unit := modify (set_DEBUG value).

Definition debugging : M bool := get DEBUG.

Definition debug_off : M unit := debug_set false.

Definition debug_on : M unit := debug_set true.

(* ------------------------------------------------------------------------- *)
(** ** The library calls the display routines make *)

(** What the host answers during one call: the name [tempfile] settles on,
    how [cv2.imwrite] fares and the exit status the shell hands back. *)
Inductive imwrite_outcome : Type :=
| Written        (* the file is written, [True] is returned *)
| NotWritten     (* nothing is left on disk, [False] is returned *)
| WriteRaises.   (* the image is rejected before any file is opened *)

Record Host : Type := mk_Host {
  tmp_stem : string;
  imwrite_result : imwrite_outcome;
  exit_status : Z
}.

Definition print (line : string) : M unit := modify (emit (Print line)).

(** Put a new file under [path]. *)
Definition create_file (path : string) : M unit := fun w =>
  let i := next_inode w in
  (emit (FileCreate path i) (bump_inode (set_files (<[path := i]> (files w)) w)),
   Ok tt).

(** [os.remove (path)] *)
Definition os_remove (path : string) : M unit := fun w =>
  match files w !! path with
  | Some i => (emit (FileUnlink path i) (set_files (delete path (files w)) w), Ok tt)
  | None => (w, Raise (FileNotFoundError path))
  end.

(** [tempfile.NamedTemporaryFile (suffix=...).name]: the file is created
    under a name of its own; the object itself is bound to nothing, so it is
    closed as soon as its name has been read, and closing it deletes the
    file.  Only the name is left. *)
Definition NamedTemporaryFile_name (h : Host) (suffix : string) : M string :=
  let name := tmp_stem h +:+ suffix in
  _ ← create_file name;
  _ ← os_remove name;
  mret name.

(** [cv2.imwrite (fn, im)] *)
Definition cv2_imwrite (h : Host) (fn : string) (im : ndarray) : M bool :=
  match imwrite_result h with
  | Written =>
      exists_ ← get (fun w => files w !! fn);
      _ ← (match exists_ with
           | Some _ => mret tt            (* truncated in place *)
           | None => create_file fn
           end);
      mret true
  | NotWritten => mret false
  | WriteRaises => raise CvError
  end.

(** [os.system (cmd)]: the exit status comes back as a number, whatever the
    command did. *)
Definition os_system (h : Host) (cmd : string) : M Z :=
  _ ← modify (emit (Exec cmd (exit_status h)));
  mret (exit_status h).

Definition cv2_imshow (title : string) (im : ndarray) : M unit :=
  modify (emit (Imshow title im)).
Definition cv2_waitKey (delay : Z) : M unit := modify (emit (WaitKey delay)).
Definition cv2_destroyWindow (title : string) : M unit :=
  modify (emit (DestroyWindow title)).

(* ------------------------------------------------------------------------- *)
(** ** Display *)

Definition display_sixel (h : Host) (im : ndarray) (title : string) (levels : Z)
  : M unit :=
  _ ← print (title +:+ ":");
  (* Save the image to a temporary file, run img2sixel on it, then delete
     the file. *)
  fn ← NamedTemporaryFile_name h ".png";
  _ ← cv2_imwrite h fn im;
  let cmd := "img2sixel -p " +:+ Fmt.d levels +:+ " " +:+ fn +:+ " 2>/dev/null" in
  _ ← os_system h cmd;
  _ ← os_remove fn;
  (* Terminate the line in the output in case img2sixel didn't. *)
  print "".

Definition display (im : ndarray) (title : option string) (delay : Z)
    (destroy : bool) : M unit :=
  title ← (match title with
           | None => get argv0
           | Some t => mret t
           end);
  _ ← cv2_imshow title im;
  _ ← cv2_waitKey delay;
  if destroy then cv2_destroyWindow title else mret tt.

Definition ddisplay (h : Host) (im : ndarray) (title : string) (delay : Z)
    (destroy : bool) : M unit :=
  dbg ← debugging;
  if (dbg : bool) return M unit then
    env ← get ENVIRONMENT;
    sys ← get systype;
    if bool_decide ("sixel16" ∈ env) && negb (String.eqb sys "Windows") then
      display_sixel h im title 16
    else if bool_decide ("sixel256" ∈ env) && negb (String.eqb sys "Windows") then
      display_sixel h im title 256
    else
      display im (Some title) delay destroy
  else mret tt.

(** The inodes created, and how often one inode is unlinked, in a run of
    effects. *)
Definition created (es : list effect) : list nat :=
  omap (fun e => match e with FileCreate _ i => Some i | _ => None end) es.

Definition is_unlink_of (i : nat) (e : effect) : bool :=
  match e with
  | FileUnlink _ j => Nat.eqb i j
  | _ => false
  end.

Definition unlinks (i : nat) (es : list effect) : nat :=
  length (List.filter (is_unlink_of i) es).

(* ------------------------------------------------------------------------- *)
(** ** Notions used in the statements *)

(** A 16 x 1 image of zeros and the 3 x 3 Laplacian mask. *)
Definition zeros_16x1 : ndarray := array2 (List.repeat [0] 16) uint8.

Definition laplacian : ndarray :=
  array2 [ [1; 1; 1]; [1; -1; 1]; [1; 1; 1] ] int_.

(** Two worlds right after the module has been loaded on a Linux host, one
    with terminal graphics asked for but debugging off, one with debugging
    on and 256-level terminal graphics; and two hosts, on the second of which
    the shell does not find [img2sixel]. *)
Definition world_quiet : World :=
  module_init {[ "SXCV" := "sixel16 SIXEL256" ]} "Linux" "lab1.py" ∅ 0.

Definition world_debug_sixel256 : World :=
  module_init {[ "SXCV" := "DEBUG sixel256" ]} "Linux" "lab1.py" ∅ 0.

Definition host_ok : Host := mk_Host "/tmp/tmpq1" Written 0.

Definition host_no_img2sixel : Host := mk_Host "/tmp/tmpk3" Written 127.

(** The window asked for, rows [aty - rows // 2 .. aty - rows // 2 + rows - 1]
    and columns likewise, has no pixel in common with the image. *)
Definition window_outside (ny nx aty atx rows cols : Z) : Prop :=
  aty - rows / 2 + rows <= 0 \/ ny <= aty - rows / 2 \/
  atx - cols / 2 + cols <= 0 \/ nx <= atx - cols / 2.

(** The keyword test of the dispatcher, as a proposition. *)
Definition wants_sixel (keyword : string) (w : World) : Prop :=
  keyword ∈ ENVIRONMENT w /\ systype w <> "Windows".

(** The world after [es] has happened and [k] inodes have been used, the
    file system being what it was. *)
Definition after (es : list effect) (k : nat) (w : World) : World :=
  mk_World (DEBUG w) (ENVIRONMENT w) (systype w) (argv0 w) (files w)
           (k + next_inode w) (effects w ++ es).

(** The command line handed to the shell. *)
Definition sixel_cmd (levels : Z) (fn : string) : string :=
  "img2sixel -p " +:+ Fmt.d levels +:+ " " +:+ fn +:+ " 2>/dev/null".

(** The effects of one call of [display_sixel], by the way [cv2.imwrite]
    fares; [n] is the first unused inode. *)
Definition sixel_effects (h : Host) (title : string) (levels : Z) (n : nat)
  : list effect :=
  let fn := tmp_stem h +:+ ".png" in
  [Print (title +:+ ":"); FileCreate fn n; FileUnlink fn n] ++
  match imwrite_result h with
  | Written => [FileCreate fn (S n); Exec (sixel_cmd levels fn) (exit_status h);
                FileUnlink fn (S n); Print ""]
  | NotWritten => [Exec (sixel_cmd levels fn) (exit_status h)]
  | WriteRaises => []
  end.

Definition sixel_result (h : Host) : res unit :=
  match imwrite_result h with
  | Written => Ok tt
  | NotWritten => Raise (FileNotFoundError (tmp_stem h +:+ ".png"))
  | WriteRaises => Raise CvError
  end.

(* ------------------------------------------------------------------------- *)
(** ** More of the module and notions for the further properties *)

Definition testimage : ndarray :=
  array2 [
    [10;   12;   11;   11;   12;   11;   10;   12;   11;   12];
    [10;   10;   10;   10;   10;   10;   10;   10;   10;   11];
    [11;   10;   14;   15;   10;   10;   10;   10;   15;   10];
    [10;   10;   14;   15;   10;   10;   10;   10;   10;   10];
    [10;   10;   14;   14;   10;   10;   10;   10;   10;   10];
    [10;   10;   10;   10;   15;   13;   10;   10;   10;   12];
    [12;   10;   10;   10;   14;   13;   10;   15;   10;   10];
    [12;   10;   10;   10;   10;   14;   10;   14;   14;   11];
    [12;   14;   14;   10;   10;   10;   10;   14;   10;   11];
    [10;   13;   14;   10;   10;   10;   15;   15;   10;   12];
    [12;   14;   15;   10;   10;   10;   10;   10;   10;   10];
    [10;   10;   10;   10;   10;   10;   10;   10;   10;   12];
    [11;   10;   11;   10;   12;   12;   11;   11;   10;   11]
  ] uint8.

(** *** plot_histogram *)

(** The calls made to Matplotlib, in the order they are made.  They are
    recorded as they are issued; what Matplotlib makes of their arguments is
    outside this module. *)
Inductive plot_cmd : Type :=
| PltFigure
| PltGrid
| PltXlim (lo hi : Z)
| PltXlabel (label : string)
| PltYlabel (label : string)
| PltTitle (label : string)
| PltBar (x height : ndarray) (color : string)
| PltShow.

Definition Plt (A : Type) : Type := list plot_cmd -> list plot_cmd * res A.

Global Instance Plt_ret : MRet Plt := fun _ a cmds => (cmds, Ok a).
Global Instance Plt_bind : MBind Plt := fun _ _ k m cmds =>
  match m cmds with
  | (cmds', Ok a) => k a cmds'
  | (cmds', Raise e) => (cmds', Raise e)
  end.

Definition plt (c : plot_cmd) : Plt unit :=
  fun cmds => ((cmds ++ [c])%list, Ok tt).

(** A pure computation inside [Plt]. *)
Definition lift {A} (r : res A) : Plt A := fun cmds => (cmds, r).

(** [for x in xs: body (x)] *)
Fixpoint plt_for {A} (xs : list A) (body : A -> Plt unit) : Plt unit :=
  match xs with
  | [] => mret tt
  | x :: xs' => _ ← body x; plt_for xs' body
  end.

(** [len (a)]: the first extent; an array without dimensions has no length. *)
Definition len_ (a : ndarray) : res Z :=
  match shape a with
  | n :: _ => Ok n
  | [] => Raise TypeError
  end.

(** The part of [a] under first subscript [j], as an array of its own. *)
Definition subarray (a : ndarray) (j : Z) : ndarray :=
  let size := size_of (tl (shape a)) in
  mk_ndarray (tl (shape a)) (dtype_of a)
             (take (Z.to_nat size) (drop (Z.to_nat (j * size)) (data a))).

(** [a[c]] *)
Definition getrow (a : ndarray) (c : Z) : res ndarray :=
  match shape a with
  | n :: _ => j ← norm_index n c; mret (subarray a j)
  | [] => Raise IndexError
  end.

(** [l[i]] on a list of strings. *)
Definition list_getitem (l : list string) (i : Z) : res string :=
  j ← norm_index (Z.of_nat (length l)) i;
  match nth_error l (Z.to_nat j) with
  | Some v => Ok v
  | None => Raise IndexError
  end.

Definition default_colours : list string := ["blue"; "green"; "red"].

Definition plot_histogram (x y : ndarray) (title : string)
    (colours : list string) : Plt unit :=
  (* Set up the plot. *)
  _ ← plt PltFigure;
  _ ← plt PltGrid;
  n ← lift (len_ x);
  _ ← plt (PltXlim 0 n);
  _ ← plt (PltXlabel "grey level");
  _ ← plt (PltYlabel "frequency");
  _ ← plt (PltTitle title);
  (* Plot the data. *)
  _ ← (if rank y =? 1 return Plt unit then
         plt (PltBar x y "grey")
       else
         '(nc, np) ← lift (unpack2 (shape y));
         plt_for (range 0 nc) (fun c =>
           row ← lift (getrow y c);
           colour ← lift (list_getitem colours c);
           plt (PltBar x row colour)));
  (* Show the result. *)
  plt PltShow.

(** The calls that set up the plot. *)
Definition plot_setup (n : Z) (title : string) : list plot_cmd :=
  [PltFigure; PltGrid; PltXlim 0 n; PltXlabel "grey level";
   PltYlabel "frequency"; PltTitle title].



Definition levels_4 : ndarray := mk_ndarray [4] int_ [0; 1; 2; 3].

(** The strings of a list, one after the other. *)
Definition join (ls : list string) : string := fold_right String.append "" ls.

(** The sample at row [y], column [x] of a monochrome image and at row [y],
    column [x], channel [c] of a multi-channel one, straight from the
    row-major store. *)
Definition pixel2 (im : ndarray) (y x : Z) : Z :=
  nth (Z.to_nat (y * nth 1 (shape im) 0 + x)) (data im) 0.

Definition pixel3 (im : ndarray) (y x c : Z) : Z :=
  nth (Z.to_nat ((y * nth 1 (shape im) 0 + x) * nth 2 (shape im) 0 + c))
      (data im) 0.

(** The text of the pixels of one row of one channel, and the lines that
    [examine] writes for row [y] of a monochrome and of a multi-channel
    image. *)
Definition pixels_text (r : region) (value : Z -> Z) : string :=
  join (map (fun x => Fmt.d4 (value x)) (range (r_xlo r) (r_xhi r))).

Definition mono_row_text (im : ndarray) (r : region) (y : Z) : string :=
  Fmt.d5 y +:+ "| " +:+ pixels_text r (pixel2 im y) +:+ nl.

Definition channel_text (im : ndarray) (r : region) (y c : Z) : string :=
  (if 0 <? c then "     " +:+ "| " else "")
  +:+ pixels_text r (fun x => pixel3 im y x c) +:+ nl.

Definition colour_row_text (im : ndarray) (r : region) (y : Z) : string :=
  Fmt.d5 y +:+ "| " +:+ join (map (channel_text im r y) (range 0 (r_nc r))).

(** The line of column numbers and the rule under it. *)
Definition column_line (r : region) : string :=
  start +:+ join (map Fmt.d4 (range (r_xlo r) (r_xhi r))) +:+ nl.

Definition rule_line (r : region) : string :=
  start +:+ Fmt.repeat "-" (4 * Z.to_nat (r_cols r)) +:+ nl.

(** The line about the region, with the title line before it if there is
    one. *)
Definition summary_text (r : region) (title : option string) : string :=
  match title with Some t => t +:+ nl | None => "" end
  +:+ "[" +:+ Fmt.d (r_rows r) +:+ " x " +:+ Fmt.d (r_cols r)
  +:+ " region of " +:+ Fmt.d (r_ny r) +:+ " x " +:+ Fmt.d (r_nx r)
  +:+ "-pixel "
  +:+ (if r_nc r =? 0 then "monochrome" else Fmt.d (r_nc r) +:+ "-channel")
  +:+ " image at (" +:+ Fmt.d (r_aty r) +:+ "," +:+ Fmt.d (r_atx r) +:+ ")]:"
  +:+ nl.





(** An effect with the exit status of a command left out. *)
Definition forget_status (e : effect) : effect :=
  match e with
  | Exec cmd _ => Exec cmd 0
  | _ => e
  end.

(** The window title [display] uses. *)
Definition window_title (title : option string) (w : World) : string :=
  match title with
  | None => argv0 w
  | Some t => t
  end.

(** A 2 x 2 image with three channels. *)
Definition rgb_2x2 : ndarray :=
  mk_ndarray [2; 2; 3] uint8 [1; 2; 3; 4; 5; 6; 7; 8; 9; 10; 11; 12].


(* ------------------------------------------------------------------------- *)
(** * Properties *)

(** Case analysis on a subscript known to lie in [lo .. lo + n - 1]. *)
Ltac small_index y lo n :=
  let H := fresh in
  let k := fresh "k" in
  let Hk := fresh "Hk" in
  assert (H : exists k : nat, (k < n)%nat /\ y = lo + Z.of_nat k)
    by (exists (Z.to_nat (y - lo)); lia);
  destruct H as (k & Hk & ->);
  repeat (destruct k as [|k]; [|try lia]).

(** ** Formatting *)

Lemma fmt_repeat_length (c : ascii) (n : nat) : String.length (Fmt.repeat c n) = n.
Proof. induction n as [|n IH]; simpl; [reflexivity | now rewrite IH]. Qed.

Lemma string_app_length (s t : string) :
  String.length (s +:+ t) = (String.length s + String.length t)%nat.
Proof. induction s as [|c s IH]; simpl; [reflexivity | now rewrite IH]. Qed.

(** A right-justified field is [w] wide unless its content is wider. *)
Lemma rjust_length (w : nat) (s : string) :
  String.length (Fmt.rjust w s) = Nat.max w (String.length s).
Proof. unfold Fmt.rjust. rewrite string_app_length, fmt_repeat_length. lia. Qed.

Lemma contains_middle (pre s post : string) :
  Fmt.contains (pre +:+ s +:+ post) s.
Proof. now exists pre, post. Qed.

(** ** Arrays *)

Lemma range_bounds (lo hi x : Z) : In x (range lo hi) -> lo <= x < hi.
Proof.
  unfold range. rewrite in_map_iff. intros (k & <- & Hk).
  apply in_seq in Hk. lia.
Qed.

Lemma range_empty (lo hi : Z) : hi <= lo -> range lo hi = [].
Proof.
  intros H. unfold range.
  replace (Z.to_nat (hi - lo)) with O by lia. reflexivity.
Qed.

Lemma norm_index_in (n i : Z) : 0 <= i < n -> norm_index n i = Ok i.
Proof.
  intros [H1 H2]. unfold norm_index.
  apply Z.leb_le in H1. apply Z.ltb_lt in H2. now rewrite H1, H2.
Qed.

(** Reading a pixel of a monochrome image inside its bounds succeeds. *)
Lemma getitem2_in_bounds (im : ndarray) (ny nx y x : Z) :
  well_formed im -> shape im = [ny; nx] ->
  0 <= y < ny -> 0 <= x < nx ->
  exists v, getitem im [y; x] = Ok v.
Proof.
  intros [_ Hlen] Hshape Hy Hx. unfold getitem. rewrite Hshape in *.
  cbn [offset]. rewrite (norm_index_in ny y Hy). cbn [mbind res_bind].
  rewrite (norm_index_in nx x Hx). cbn [mbind res_bind].
  unfold size_of in Hlen. cbn [fold_right] in Hlen.
  destruct (nth_error (data im) (Z.to_nat ((0 * ny + y) * nx + x))) as [v|] eqn:E.
  - now exists v.
  - apply nth_error_None in E. exfalso. nia.
Qed.

Lemma for_each_ok {A T} (xs : list A) (body : T -> A -> res T) :
  (forall s x, In x xs -> exists s', body s x = Ok s') ->
  forall s, exists s', for_each xs body s = Ok s'.
Proof.
  induction xs as [|x xs IH]; intros Hbody s; cbn [for_each].
  - now exists s.
  - destruct (Hbody s x) as [s1 E1]; [now left|]. rewrite E1. cbn [mbind res_bind].
    apply IH. intros s2 x2 Hin. apply Hbody. now right.
Qed.

(** ** describe *)

(** C1.  [describe] raises exactly when the rank of the image is neither 2
    nor 3, and what it raises is the [ValueError] whose message carries the
    rank; a rank-2 image gets the "is monochrome" sentence and a rank-3 image
    the "has N channels" sentence with N the third dimension, both with the
    row count, the column count and the sample type of the image; for the
    arrowhead image titled "This image" the sentence is
    "This image is monochrome of size 10 rows x 9 columns with uint8 pixels." *)
Theorem describe_spec (im : ndarray) (title : string) :
  ((exists e, describe im title = Raise e) <-> rank im <> 2 /\ rank im <> 3) /\
  (rank im <> 2 -> rank im <> 3 ->
     describe im title
     = Raise (ValueError ("I have a '" +:+ Fmt.d (rank im) +:+ "'-dimensional image!"))
     /\ Fmt.contains ("I have a '" +:+ Fmt.d (rank im) +:+ "'-dimensional image!")
                     (Fmt.d (rank im))) /\
  (rank im = 2 ->
     exists ny nx, shape im = [ny; nx] /\
       describe im title
       = Ok (title +:+ " " +:+ "is monochrome" +:+ " of size " +:+ Fmt.d ny
               +:+ " rows x " +:+ Fmt.d nx +:+ " columns with "
               +:+ dtype_str (dtype_of im) +:+ " pixels.")) /\
  (rank im = 3 ->
     exists ny nx nc, shape im = [ny; nx; nc] /\
       describe im title
       = Ok (title +:+ " " +:+ ("has " +:+ Fmt.d nc +:+ " channels") +:+ " of size "
               +:+ Fmt.d ny +:+ " rows x " +:+ Fmt.d nx +:+ " columns with "
               +:+ dtype_str (dtype_of im) +:+ " pixels.")) /\
  describe arrowhead "This image"
  = Ok "This image is monochrome of size 10 rows x 9 columns with uint8 pixels.".
Proof.
  assert (H2 : rank im = 2 -> exists ny nx, shape im = [ny; nx]).
  { unfold rank. destruct (shape im) as [|a [|b [|c l]]]; cbn [length]; try lia.
    intros _. now exists a, b. }
  assert (H3 : rank im = 3 -> exists ny nx nc, shape im = [ny; nx; nc]).
  { unfold rank. destruct (shape im) as [|a [|b [|c [|d l]]]]; cbn [length]; try lia.
    intros _. now exists a, b, c. }
  assert (Hbad : rank im <> 2 -> rank im <> 3 ->
            describe im title
            = Raise (ValueError ("I have a '" +:+ Fmt.d (rank im)
                                   +:+ "'-dimensional image!"))).
  { intros N2 N3. unfold describe.
    apply Z.eqb_neq in N2. apply Z.eqb_neq in N3. now rewrite N2, N3. }
  assert (Hmono : rank im = 2 -> exists ny nx, shape im = [ny; nx] /\
            describe im title
            = Ok (title +:+ " " +:+ "is monochrome" +:+ " of size " +:+ Fmt.d ny
                    +:+ " rows x " +:+ Fmt.d nx +:+ " columns with "
                    +:+ dtype_str (dtype_of im) +:+ " pixels.")).
  { intros R. destruct (H2 R) as (ny & nx & E). exists ny, nx. split; [exact E|].
    unfold describe. rewrite R, E. reflexivity. }
  assert (Hcol : rank im = 3 -> exists ny nx nc, shape im = [ny; nx; nc] /\
            describe im title
            = Ok (title +:+ " " +:+ ("has " +:+ Fmt.d nc +:+ " channels")
                    +:+ " of size " +:+ Fmt.d ny +:+ " rows x " +:+ Fmt.d nx
                    +:+ " columns with " +:+ dtype_str (dtype_of im) +:+ " pixels.")).
  { intros R. destruct (H3 R) as (ny & nx & nc & E). exists ny, nx, nc.
    split; [exact E|]. unfold describe. rewrite R, E. reflexivity. }
  split; [split|split; [|split; [exact Hmono|split; [exact Hcol|]]]].
  - intros [e He]. split; intros R.
    + destruct (Hmono R) as (? & ? & _ & E). congruence.
    + destruct (Hcol R) as (? & ? & ? & _ & E). congruence.
  - intros [N2 N3]. eexists. now apply Hbad.
  - intros N2 N3. split; [now apply Hbad | apply contains_middle].
  - vm_compute. reflexivity.
Qed.

Lemma describe_spec_witness :
  exists ny nx, shape arrowhead = [ny; nx] /\
    describe arrowhead "This image"
    = Ok ("This image" +:+ " " +:+ "is monochrome" +:+ " of size " +:+ Fmt.d ny
            +:+ " rows x " +:+ Fmt.d nx +:+ " columns with "
            +:+ dtype_str (dtype_of arrowhead) +:+ " pixels.").
Proof.
  exact (proj1 (proj2 (proj2 (describe_spec arrowhead "This image"))) eq_refl).
Defined.

(** ** create_mask *)

(** C2.  [create_mask "blur3"] is a 3 x 3 integer array of ones,
    [create_mask "blur5"] a 5 x 5 integer array of ones,
    [create_mask "laplacian"] a 3 x 3 integer array of ones with -1 at
    (1,1); any other name raises a [ValueError] whose message contains the
    name as it was given. *)
Theorem create_mask_spec :
  (exists m, create_mask "blur3" = Ok m /\ shape m = [3; 3] /\ dtype_of m = int_ /\
     forall y x, 0 <= y < 3 -> 0 <= x < 3 -> getitem m [y; x] = Ok 1) /\
  (exists m, create_mask "blur5" = Ok m /\ shape m = [5; 5] /\ dtype_of m = int_ /\
     forall y x, 0 <= y < 5 -> 0 <= x < 5 -> getitem m [y; x] = Ok 1) /\
  (exists m, create_mask "laplacian" = Ok m /\ shape m = [3; 3] /\ dtype_of m = int_ /\
     forall y x, 0 <= y < 3 -> 0 <= x < 3 ->
       getitem m [y; x] = Ok (if (y =? 1) && (x =? 1) then -1 else 1)) /\
  (forall name, name <> "blur3" -> name <> "blur5" -> name <> "laplacian" ->
     exists msg, create_mask name = Raise (ValueError msg) /\ Fmt.contains msg name).
Proof.
  split; [|split; [|split]].
  - eexists. split; [reflexivity|]. split; [reflexivity|]. split; [reflexivity|].
    intros y x Hy Hx. small_index y 0 3%nat; small_index x 0 3%nat; reflexivity.
  - eexists. split; [reflexivity|]. split; [reflexivity|]. split; [reflexivity|].
    intros y x Hy Hx. small_index y 0 5%nat; small_index x 0 5%nat; reflexivity.
  - eexists. split; [reflexivity|]. split; [reflexivity|]. split; [reflexivity|].
    intros y x Hy Hx. small_index y 0 3%nat; small_index x 0 3%nat; reflexivity.
  - intros name N1 N2 N3. unfold create_mask.
    apply String.eqb_neq in N1. apply String.eqb_neq in N2.
    apply String.eqb_neq in N3. rewrite N1, N2, N3.
    eexists. split; [reflexivity|]. apply contains_middle.
Qed.

Lemma create_mask_spec_witness :
  exists msg, create_mask "whatsit" = Raise (ValueError msg)
              /\ Fmt.contains msg "whatsit".
Proof.
  apply (proj2 (proj2 (proj2 create_mask_spec)) "whatsit"); discriminate.
Defined.

(** ** examine: the region *)

(** The region of a monochrome image, written out. *)
Lemma examine_region_mono (im : ndarray) (ny nx : Z) (aty atx : option Z)
    (rows cols : Z) :
  shape im = [ny; nx] ->
  examine_region im aty atx rows cols
  = Ok (let aty := match aty with None => ny / 2 | Some v => v end in
        let atx := match atx with None => nx / 2 | Some v => v end in
        let ylo := Z.max (aty - rows / 2) 0 in
        let yhi := Z.min (ylo + rows) ny in
        let xlo := Z.max (atx - cols / 2) 0 in
        let xhi := Z.min (xlo + cols) nx in
        mk_region ny nx 0 aty atx ylo yhi (yhi - ylo) xlo xhi (xhi - xlo)).
Proof.
  intros E. unfold examine_region, shape_at, rank. rewrite E. reflexivity.
Qed.

(** What clipping guarantees in one dimension: the bounds stay inside the
    image, so the size never exceeds the extent; the size is negative as
    soon as the lower bound lies beyond the extent or fewer than zero
    samples are asked for. *)
Lemma clip_bounds (center requested extent : Z) :
  0 <= extent ->
  let lo := Z.max (center - requested / 2) 0 in
  let hi := Z.min (lo + requested) extent in
  0 <= lo /\ hi <= extent /\ hi - lo <= extent /\
  (0 <= hi - lo <-> 0 <= requested /\ lo <= extent).
Proof. intros H lo hi. subst lo hi. lia. Qed.

(** With every argument left out, the region is the whole image exactly when
    the image has at most 15 rows and 15 columns. *)
Lemma examine_default_region (im : ndarray) (ny nx : Z) :
  shape im = [ny; nx] -> 0 <= ny -> 0 <= nx ->
  exists r, examine_region im None None 15 15 = Ok r /\
    r_aty r = ny / 2 /\ r_atx r = nx / 2 /\
    (r_ylo r = 0 /\ r_yhi r = ny <-> ny <= 15) /\
    (r_xlo r = 0 /\ r_xhi r = nx <-> nx <= 15).
Proof.
  intros E Hy Hx. eexists. split; [apply (examine_region_mono _ _ _ _ _ _ _ E)|].
  cbn [r_aty r_atx r_ylo r_yhi r_xlo r_xhi].
  change (15 / 2) with 7.
  pose proof (Z.div_mod ny 2 ltac:(lia)). pose proof (Z.mod_pos_bound ny 2 ltac:(lia)).
  pose proof (Z.div_mod nx 2 ltac:(lia)). pose proof (Z.mod_pos_bound nx 2 ltac:(lia)).
  repeat split; lia.
Qed.

(** C3.  The region is worked out per dimension as
    lo = max (center - requested // 2, 0), hi = min (lo + requested, extent),
    size = hi - lo, and this never raises; but the size is not always
    non-negative: on the 3 x 3 Laplacian mask, asking for 2 rows around row
    10 gives rows 9 .. 3, a size of -6, which the heading then prints. *)
Theorem examine_region_negative_size :
  create_mask "laplacian" = Ok laplacian /\
  (r_ylo <$> examine_region laplacian (Some 10) None 2 15) = Ok 9 /\
  (r_yhi <$> examine_region laplacian (Some 10) None 2 15) = Ok 3 /\
  (r_rows <$> examine_region laplacian (Some 10) None 2 15) = Ok (-6) /\
  examine laplacian (Some 10) None 2 15 None
  = Ok ("[-6 x 3 region of 3 x 3-pixel monochrome image at (10,1)]:" +:+ nl
        +:+ "          0   1   2" +:+ nl
        +:+ "       ------------" +:+ nl).
Proof. repeat split; vm_compute; reflexivity. Qed.

(** C4.  Left at their defaults, the row and column counts asked for are 15
    and 15, not the extents of the image: on a 16 x 1 image the default call
    selects rows 1 .. 15 around the default centre row 8 and leaves row 0
    out. *)
Theorem examine_default_region_16x1 :
  shape zeros_16x1 = [16; 1] /\
  (r_aty <$> examine_region zeros_16x1 None None 15 15) = Ok 8 /\
  (r_ylo <$> examine_region zeros_16x1 None None 15 15) = Ok 1 /\
  (r_yhi <$> examine_region zeros_16x1 None None 15 15) = Ok 16 /\
  (r_rows <$> examine_region zeros_16x1 None None 15 15) = Ok 15 /\
  exists body,
    examine_default zeros_16x1
    = Ok ("[15 x 1 region of 16 x 1-pixel monochrome image at (8,0)]:" +:+ nl
          +:+ "          0" +:+ nl
          +:+ "       ----" +:+ nl
          +:+ "    1|    0" +:+ nl +:+ body).
Proof.
  repeat split; try (vm_compute; reflexivity).
  eexists. vm_compute. reflexivity.
Qed.

(** ** examine: the text *)

(** Every value from -999 to 9999 fills its ["%4d"] field exactly. *)
Lemma d4_width (v : Z) : -999 <= v <= 9999 -> String.length (Fmt.d4 v) = 4%nat.
Proof.
  intros Hv.
  assert (Hall : forallb (fun z => Nat.eqb (String.length (Fmt.d4 z)) 4)
                         (range (-999) 10000) = true)
    by (vm_compute; reflexivity).
  rewrite forallb_forall in Hall.
  apply Nat.eqb_eq, Hall. unfold range. apply in_map_iff.
  exists (Z.to_nat (v + 999)). split; [lia|]. apply in_seq. lia.
Qed.

(** C8.  [examine (create_mask ("laplacian"))] describes a 3 x 3 region of a
    3 x 3-pixel monochrome image at (1,1); its body lines give the mask
    values row by row, each value, the -1 too, right-justified in a field of
    4 characters. *)
Theorem examine_laplacian :
  (im ← create_mask "laplacian"; examine_default im)
  = Ok ("[3 x 3 region of 3 x 3-pixel monochrome image at (1,1)]:" +:+ nl
        +:+ "          0   1   2" +:+ nl
        +:+ "       ------------" +:+ nl
        +:+ "    0| " +:+ Fmt.d4 1 +:+ Fmt.d4 1 +:+ Fmt.d4 1 +:+ nl
        +:+ "    1| " +:+ Fmt.d4 1 +:+ Fmt.d4 (-1) +:+ Fmt.d4 1 +:+ nl
        +:+ "    2| " +:+ Fmt.d4 1 +:+ Fmt.d4 1 +:+ Fmt.d4 1 +:+ nl) /\
  Fmt.d4 1 = "   1" /\ Fmt.d4 (-1) = "  -1" /\
  Forall (fun v => String.length (Fmt.d4 v) = 4%nat) (data laplacian).
Proof.
  split; [vm_compute; reflexivity|].
  split; [vm_compute; reflexivity|].
  split; [vm_compute; reflexivity|].
  replace (data laplacian) with [1; 1; 1; 1; -1; 1; 1; 1; 1]
    by (vm_compute; reflexivity).
  repeat (constructor; [apply d4_width; lia|]). constructor.
Qed.

(** A row of pixels of a monochrome image is formatted without an exception
    when the row and the columns lie inside the image. *)
Lemma examine_pixels_ok (im : ndarray) (ny nx : Z) (r : region) (y : Z)
    (text : string) :
  well_formed im -> shape im = [ny; nx] ->
  0 <= y < ny -> 0 <= r_xlo r -> r_xhi r <= nx ->
  exists text', examine_pixels im r y (fun x => [x]) text = Ok text'.
Proof.
  intros Hwf E Hy Hlo Hhi. unfold examine_pixels.
  apply for_each_ok. intros s x Hx. apply range_bounds in Hx.
  destruct (getitem2_in_bounds im ny nx y x Hwf E Hy) as [v Ev]; [lia|].
  rewrite Ev. now eexists.
Qed.

Lemma examine_body_ok (im : ndarray) (ny nx : Z) (r : region) (text : string) :
  well_formed im -> shape im = [ny; nx] -> r_nc r = 0 ->
  0 <= r_ylo r -> r_yhi r <= ny -> 0 <= r_xlo r -> r_xhi r <= nx ->
  exists text', examine_body im r text = Ok text'.
Proof.
  intros Hwf E Hnc Hylo Hyhi Hxlo Hxhi. unfold examine_body.
  apply for_each_ok. intros s y Hy. apply range_bounds in Hy.
  rewrite Hnc. cbn [Z.eqb].
  destruct (examine_pixels_ok im ny nx r y (s +:+ Fmt.d5 y +:+ "| ") Hwf E)
    as [t Et]; [lia | assumption | assumption |].
  rewrite Et. now eexists.
Qed.

(** C10.  On a monochrome image [examine] returns a string and
    raises nothing, whatever the centre and the counts asked for: every pixel
    subscript it reads lies inside the image, and when the clipped row range
    is empty the text is the heading alone. *)
Theorem examine_mono_total (im : ndarray) (ny nx : Z) (aty atx : option Z)
    (rows cols : Z) (title : option string) :
  well_formed im -> shape im = [ny; nx] ->
  exists r text,
    examine_region im aty atx rows cols = Ok r /\
    examine im aty atx rows cols title = Ok text /\
    (forall y x, In y (range (r_ylo r) (r_yhi r)) ->
                 In x (range (r_xlo r) (r_xhi r)) ->
                 0 <= y < ny /\ 0 <= x < nx) /\
    (r_yhi r <= r_ylo r -> text = examine_heading r title).
Proof.
  intros Hwf E. pose proof (examine_region_mono im ny nx aty atx rows cols E) as Hr.
  cbv zeta in Hr.
  set (r := mk_region _ _ _ _ _ _ _ _ _ _ _) in Hr.
  assert (Hb : 0 <= r_ylo r /\ r_yhi r <= ny /\ 0 <= r_xlo r /\ r_xhi r <= nx)
    by (subst r; cbn [r_ylo r_yhi r_xlo r_xhi]; lia).
  destruct Hb as (Hylo & Hyhi & Hxlo & Hxhi).
  destruct (examine_body_ok im ny nx r (examine_heading r title) Hwf E eq_refl
              Hylo Hyhi Hxlo Hxhi) as [text Et].
  exists r, text. split; [exact Hr|]. split; [|split].
  - unfold examine. rewrite Hr. exact Et.
  - intros y x Hy Hx. apply range_bounds in Hy. apply range_bounds in Hx. lia.
  - intros Hempty. unfold examine_body in Et.
    rewrite (range_empty _ _ Hempty) in Et. cbn [for_each] in Et. congruence.
Qed.

Lemma examine_mono_total_witness :
  exists r text,
    examine_region arrowhead (Some 20) (Some (-3)) 4 6 = Ok r /\
    examine arrowhead (Some 20) (Some (-3)) 4 6 (Some "Arrowhead") = Ok text /\
    (forall y x, In y (range (r_ylo r) (r_yhi r)) ->
                 In x (range (r_xlo r) (r_xhi r)) ->
                 0 <= y < 10 /\ 0 <= x < 9) /\
    (r_yhi r <= r_ylo r -> text = examine_heading r (Some "Arrowhead")).
Proof.
  apply (examine_mono_total arrowhead 10 9).
  - split; [repeat constructor; lia | reflexivity].
  - reflexivity.
Defined.

(** A window that misses the image does not always give an empty body:
    around centre (-10, 1) the 3 x 3 window asked of the 3 x 3 Laplacian mask
    lies wholly above the image, yet the region starts at row 0 and all three
    rows are printed. *)
Lemma examine_window_outside_body :
  well_formed laplacian /\ shape laplacian = [3; 3] /\
  window_outside 3 3 (-10) 1 3 3 /\
  exists r,
    examine_region laplacian (Some (-10)) (Some 1) 3 3 = Ok r /\
    examine laplacian (Some (-10)) (Some 1) 3 3 None
    = Ok (examine_heading r None
          +:+ "    0|    1   1   1" +:+ nl
          +:+ "    1|    1  -1   1" +:+ nl
          +:+ "    2|    1   1   1" +:+ nl) /\
    examine laplacian (Some (-10)) (Some 1) 3 3 None <> Ok (examine_heading r None).
Proof.
  split; [split; [repeat constructor; lia | reflexivity]|].
  split; [reflexivity|].
  split; [left; vm_compute; discriminate|].
  eexists. split; [reflexivity|]. split; [vm_compute; reflexivity|].
  vm_compute. discriminate.
Qed.

(* ------------------------------------------------------------------------- *)
(** ** The debugging state *)

(** C9.  After [debug_set v], [debugging ()] returns [v], whatever the flag
    was before and whatever the environment keywords are; nothing else in
    the world changes; [debug_on] is [debug_set True] and [debug_off] is
    [debug_set False]; none of the four raises. *)
Theorem debug_set_then_debugging (v : bool) (w : World) :
  (debug_set v ≫= fun _ => debugging) w = (set_DEBUG v w, Ok v) /\
  ENVIRONMENT (set_DEBUG v w) = ENVIRONMENT w /\
  effects (set_DEBUG v w) = effects w /\
  files (set_DEBUG v w) = files w /\
  debug_on w = debug_set true w /\
  debug_off w = debug_set false w /\
  debug_set v w = (set_DEBUG v w, Ok tt) /\
  debugging w = (w, Ok (DEBUG w)) /\
  debug_on w = (set_DEBUG true w, Ok tt) /\
  debug_off w = (set_DEBUG false w, Ok tt).
Proof. repeat split. Qed.

(** ** The display dispatcher *)

(** C5.  With the debug flag off, [ddisplay] does nothing: the world after
    the call is the world before it, so no window is shown, nothing is
    printed and no file is created or deleted, whatever the environment
    keywords are. *)
Theorem ddisplay_noop (h : Host) (im : ndarray) (title : string) (delay : Z)
    (destroy : bool) (w : World) :
  DEBUG w = false ->
  ddisplay h im title delay destroy w = (w, Ok tt).
Proof.
  intros Hd. unfold ddisplay, debugging, get, mbind, M_bind.
  rewrite Hd. reflexivity.
Qed.

Lemma ddisplay_noop_witness :
  ddisplay host_ok arrowhead "Arrowhead" 0 true world_quiet = (world_quiet, Ok tt).
Proof.
  apply (ddisplay_noop host_ok arrowhead "Arrowhead" 0 true world_quiet).
  reflexivity.
Defined.

Lemma wants_sixel_test (keyword : string) (w : World) :
  bool_decide (keyword ∈ ENVIRONMENT w) && negb (String.eqb (systype w) "Windows")
  = true <-> wants_sixel keyword w.
Proof.
  unfold wants_sixel. rewrite andb_true_iff, bool_decide_eq_true, negb_true_iff.
  now rewrite String.eqb_neq.
Qed.

Lemma wants_sixel_test_false (keyword : string) (w : World) :
  ~ wants_sixel keyword w ->
  bool_decide (keyword ∈ ENVIRONMENT w) && negb (String.eqb (systype w) "Windows")
  = false.
Proof.
  intros H. apply not_true_is_false. intros E. now apply H, wants_sixel_test.
Qed.

(** What the pop-up path does. *)
Lemma display_effects (im : ndarray) (title : string) (delay : Z) (destroy : bool)
    (w : World) :
  exists w', display im (Some title) delay destroy w = (w', Ok tt) /\
    effects w' = (effects w ++ [Imshow title im; WaitKey delay]
                    ++ (if destroy then [DestroyWindow title] else []))%list /\
    files w' = files w.
Proof.
  destruct destroy; eexists; (split; [reflexivity|]); cbn; split; try reflexivity;
    now rewrite <- !app_assoc.
Qed.

(** C6.  With the debug flag on, [ddisplay] goes to the terminal-graphics
    path at depth 16 when "sixel16" is among the environment keywords and the
    system is not Windows; otherwise to the terminal-graphics path at depth
    256 when "sixel256" is among them and the system is not Windows; and in
    every other case to the pop-up path with the delay and destroy arguments
    it was given. *)
Theorem ddisplay_dispatch (h : Host) (im : ndarray) (title : string) (delay : Z)
    (destroy : bool) (w : World) :
  DEBUG w = true ->
  (wants_sixel "sixel16" w ->
     ddisplay h im title delay destroy w = display_sixel h im title 16 w) /\
  (~ wants_sixel "sixel16" w -> wants_sixel "sixel256" w ->
     ddisplay h im title delay destroy w = display_sixel h im title 256 w) /\
  (~ wants_sixel "sixel16" w -> ~ wants_sixel "sixel256" w ->
     ddisplay h im title delay destroy w = display im (Some title) delay destroy w /\
     exists w', ddisplay h im title delay destroy w = (w', Ok tt) /\
       effects w' = (effects w ++ [Imshow title im; WaitKey delay]
                       ++ (if destroy then [DestroyWindow title] else []))%list).
Proof.
  intros Hd.
  assert (E : ddisplay h im title delay destroy w
              = (if bool_decide ("sixel16" ∈ ENVIRONMENT w)
                    && negb (String.eqb (systype w) "Windows")
                 then display_sixel h im title 16
                 else if bool_decide ("sixel256" ∈ ENVIRONMENT w)
                         && negb (String.eqb (systype w) "Windows")
                 then display_sixel h im title 256
                 else display im (Some title) delay destroy) w).
  { unfold ddisplay, debugging, get, mbind, M_bind. rewrite Hd. reflexivity. }
  split; [|split].
  - intros H16. apply wants_sixel_test in H16. now rewrite E, H16.
  - intros N16 H256. apply wants_sixel_test in H256.
    now rewrite E, (wants_sixel_test_false _ _ N16), H256.
  - intros N16 N256.
    rewrite E, (wants_sixel_test_false _ _ N16), (wants_sixel_test_false _ _ N256).
    split; [reflexivity|].
    destruct (display_effects im title delay destroy w) as (w' & E1 & E2 & _).
    now exists w'.
Qed.

Lemma ddisplay_dispatch_witness :
  ddisplay host_ok arrowhead "Arrowhead" 40 false world_debug_sixel256
  = display_sixel host_ok arrowhead "Arrowhead" 256 world_debug_sixel256.
Proof.
  apply (proj1 (proj2 (ddisplay_dispatch host_ok arrowhead "Arrowhead" 40 false
                         world_debug_sixel256 eq_refl))).
  - intros [H _].
    apply (bool_decide_eq_false_1 ("sixel16" ∈ ENVIRONMENT world_debug_sixel256));
      [vm_compute; reflexivity | exact H].
  - split; [|discriminate].
    apply (bool_decide_eq_true_1 ("sixel256" ∈ ENVIRONMENT world_debug_sixel256)).
    vm_compute. reflexivity.
Defined.

(** ** The terminal-graphics path *)

Lemma bind_ok {A B} (m : M A) (k : A -> M B) (w w' : World) (a : A) :
  m w = (w', Ok a) -> (m ≫= k) w = k a w'.
Proof. intros E. unfold mbind, M_bind. now rewrite E. Qed.

Lemma bind_raise {A B} (m : M A) (k : A -> M B) (w w' : World) (e : exn) :
  m w = (w', Raise e) -> (m ≫= k) w = (w', Raise e).
Proof. intros E. unfold mbind, M_bind. now rewrite E. Qed.

Lemma os_remove_present (path : string) (i : nat) (w : World) :
  files w !! path = Some i ->
  os_remove path w
  = (emit (FileUnlink path i) (set_files (delete path (files w)) w), Ok tt).
Proof. intros E. unfold os_remove. now rewrite E. Qed.

Lemma os_remove_absent (path : string) (w : World) :
  files w !! path = None ->
  os_remove path w = (w, Raise (FileNotFoundError path)).
Proof. intros E. unfold os_remove. now rewrite E. Qed.

(** Creating a file under an unused name and removing it again leaves the
    file system as it was. *)
Lemma create_then_remove (path : string) (w : World) :
  files w !! path = None ->
  (create_file path ≫= fun _ => os_remove path) w
  = (after [FileCreate path (next_inode w); FileUnlink path (next_inode w)] 1 w,
     Ok tt).
Proof.
  intros Hfresh. rewrite (bind_ok _ _ _ _ _ eq_refl).
  rewrite (os_remove_present _ (next_inode w)) by apply lookup_insert_eq.
  unfold after, emit, set_files, bump_inode.
  cbn [files effects next_inode DEBUG ENVIRONMENT systype argv0].
  now rewrite (delete_insert_id _ _ _ Hfresh), <- app_assoc.
Qed.

Lemma NamedTemporaryFile_name_run (h : Host) (suffix : string) (w : World) :
  files w !! (tmp_stem h +:+ suffix) = None ->
  NamedTemporaryFile_name h suffix w
  = (after [FileCreate (tmp_stem h +:+ suffix) (next_inode w);
            FileUnlink (tmp_stem h +:+ suffix) (next_inode w)] 1 w,
     Ok (tmp_stem h +:+ suffix)).
Proof.
  intros Hfresh. unfold NamedTemporaryFile_name.
  rewrite (bind_ok _ _ _ _ _ eq_refl).
  rewrite (bind_ok _ _ _ _ _
             (os_remove_present _ (next_inode w) _ (lookup_insert_eq _ _ _))).
  unfold mret, M_ret, after, emit, set_files, bump_inode.
  cbn [files effects next_inode DEBUG ENVIRONMENT systype argv0].
  now rewrite (delete_insert_id _ _ _ Hfresh), <- app_assoc.
Qed.

Lemma display_sixel_run (h : Host) (im : ndarray) (title : string) (levels : Z)
    (w : World) :
  files w !! (tmp_stem h +:+ ".png") = None ->
  exists w', display_sixel h im title levels w = (w', sixel_result h) /\
    effects w' = (effects w ++ sixel_effects h title levels (next_inode w))%list /\
    files w' = files w /\
    DEBUG w' = DEBUG w /\ ENVIRONMENT w' = ENVIRONMENT w.
Proof.
  intros Hfresh. unfold display_sixel, sixel_result, sixel_effects.
  set (fn := tmp_stem h +:+ ".png") in *.
  rewrite (bind_ok _ _ _ _ _ eq_refl).
  set (w1 := emit (Print (title +:+ ":")) w).
  assert (Hfresh1 : files w1 !! fn = None) by exact Hfresh.
  rewrite (bind_ok _ _ _ _ _ (NamedTemporaryFile_name_run h ".png" w1 Hfresh1)).
  fold fn. set (w2 := after _ 1 w1).
  assert (Hfresh2 : files w2 !! fn = None) by exact Hfresh.
  unfold cv2_imwrite. destruct (imwrite_result h).
  - rewrite (bind_ok _ _ _ (create_file fn w2).1 true).
    2:{ rewrite (bind_ok _ _ _ _ _ eq_refl). cbn [get]. rewrite Hfresh2.
        now rewrite (bind_ok _ _ _ _ _ eq_refl). }
    set (w3 := (create_file fn w2).1).
    rewrite (bind_ok _ _ _ _ _ eq_refl).
    rewrite (bind_ok _ _ _ _ _
               (os_remove_present fn (S (next_inode w)) _ (lookup_insert_eq _ _ _))).
    eexists. split; [reflexivity|].
    cbn [print modify emit set_files files effects DEBUG ENVIRONMENT].
    split; [|split; [|split; reflexivity]].
    + subst w3 w2 w1. cbn. now rewrite <- !app_assoc.
    + subst w3 w2 w1. cbn. now apply delete_insert_id.
  - rewrite (bind_ok _ _ _ _ _ eq_refl).
    rewrite (bind_ok _ _ _ _ _ eq_refl).
    rewrite (bind_raise _ _ _ _ _ (os_remove_absent fn (emit _ w2) Hfresh2)).
    eexists. split; [reflexivity|].
    split; [|repeat split].
    subst w2 w1. cbn. now rewrite <- !app_assoc.
  - rewrite (bind_raise _ _ _ _ _ eq_refl).
    eexists. split; [reflexivity|].
    split; [|repeat split].
    subst w2 w1. cbn. now rewrite <- !app_assoc.
Qed.

(** C7.  Whatever exit status the [img2sixel] command comes back with, and
    however writing the image fares, every file that one call of
    [display_sixel] creates under its temporary name is unlinked exactly
    once, and the file system is left as it was found.  When the image has
    been written, the call returns normally and the last unlink, the one by
    [os.remove], follows the command whatever its exit status. *)
Theorem display_sixel_tempfile_deleted_once (h : Host) (im : ndarray)
    (title : string) (levels : Z) (w : World) :
  files w !! (tmp_stem h +:+ ".png") = None ->
  exists w' r new,
    display_sixel h im title levels w = (w', r) /\
    effects w' = (effects w ++ new)%list /\
    (forall i, In i (created new) -> unlinks i new = 1%nat) /\
    files w' = files w /\
    (imwrite_result h = Written ->
       r = Ok tt /\
       new = [Print (title +:+ ":");
              FileCreate (tmp_stem h +:+ ".png") (next_inode w);
              FileUnlink (tmp_stem h +:+ ".png") (next_inode w);
              FileCreate (tmp_stem h +:+ ".png") (S (next_inode w));
              Exec (sixel_cmd levels (tmp_stem h +:+ ".png")) (exit_status h);
              FileUnlink (tmp_stem h +:+ ".png") (S (next_inode w));
              Print ""]).
Proof.
  intros Hfresh.
  destruct (display_sixel_run h im title levels w Hfresh)
    as (w' & Hrun & Heff & Hfiles & _).
  exists w', (sixel_result h), (sixel_effects h title levels (next_inode w)).
  split; [exact Hrun|]. split; [exact Heff|]. split; [|split; [exact Hfiles|]].
  - assert (Hne : Nat.eqb (next_inode w) (S (next_inode w)) = false)
      by (apply Nat.eqb_neq; lia).
    assert (Hne' : Nat.eqb (S (next_inode w)) (next_inode w) = false)
      by (apply Nat.eqb_neq; lia).
    intros i Hi. unfold sixel_effects in *.
    destruct (imwrite_result h); cbn in Hi;
      repeat (destruct Hi as [<-|Hi]; [|]); try contradiction;
      unfold unlinks; cbn [app List.filter is_unlink_of length];
      rewrite ?Nat.eqb_refl, ?Hne, ?Hne'; reflexivity.
  - intros HW. unfold sixel_result, sixel_effects. rewrite HW. split; reflexivity.
Qed.

Lemma display_sixel_tempfile_deleted_once_witness :
  exists w' r new,
    display_sixel host_no_img2sixel arrowhead "Arrowhead" 256 world_debug_sixel256
    = (w', r) /\
    effects w' = (effects world_debug_sixel256 ++ new)%list /\
    (forall i, In i (created new) -> unlinks i new = 1%nat) /\
    files w' = files world_debug_sixel256 /\
    (imwrite_result host_no_img2sixel = Written ->
       r = Ok tt /\
       new = [Print "Arrowhead:";
              FileCreate "/tmp/tmpk3.png" 0; FileUnlink "/tmp/tmpk3.png" 0;
              FileCreate "/tmp/tmpk3.png" 1;
              Exec "img2sixel -p 256 /tmp/tmpk3.png 2>/dev/null" 127;
              FileUnlink "/tmp/tmpk3.png" 1; Print ""]).
Proof.
  apply (display_sixel_tempfile_deleted_once host_no_img2sixel arrowhead
           "Arrowhead" 256 world_debug_sixel256).
  reflexivity.
Defined.

(* ------------------------------------------------------------------------- *)
(** * Further properties *)

(** ** Strings and loops *)

Lemma string_app_assoc (s t u : string) : (s +:+ t) +:+ u = s +:+ t +:+ u.
Proof.
  induction s as [|c s IH]; [reflexivity|].
  change (String c ((s +:+ t) +:+ u) = String c (s +:+ t +:+ u)). now rewrite IH.
Qed.

Lemma string_app_nil_r (s : string) : s +:+ "" = s.
Proof.
  induction s as [|c s IH]; [reflexivity|].
  change (String c (s +:+ "") = String c s). now rewrite IH.
Qed.

Lemma join_cons (l : string) (ls : list string) : join (l :: ls) = l +:+ join ls.
Proof. reflexivity. Qed.

Lemma join_app (ls ms : list string) : join (ls ++ ms)%list = join ls +:+ join ms.
Proof.
  induction ls as [|l ls IH]; [reflexivity|].
  rewrite <- app_comm_cons, !join_cons, IH. now rewrite string_app_assoc.
Qed.

(** A loop whose body appends a piece that depends on the element only
    appends the pieces in order. *)
Lemma for_each_append {A} (xs : list A) (body : string -> A -> res string)
    (piece : A -> string) :
  (forall s x, In x xs -> body s x = Ok (s +:+ piece x)) ->
  forall s, for_each xs body s = Ok (s +:+ join (map piece xs)).
Proof.
  induction xs as [|x xs IH]; intros Hbody s; cbn [for_each map].
  - change (join []) with "". now rewrite string_app_nil_r.
  - rewrite (Hbody s x) by now left. cbn [mbind res_bind].
    rewrite IH by (intros; apply Hbody; now right).
    now rewrite join_cons, string_app_assoc.
Qed.

Lemma fold_left_append {A} (xs : list A) (piece : A -> string) (s : string) :
  fold_left (fun line x => line +:+ piece x) xs s = s +:+ join (map piece xs).
Proof.
  revert s. induction xs as [|x xs IH]; intros s; cbn [fold_left map].
  - change (join []) with "". now rewrite string_app_nil_r.
  - now rewrite IH, join_cons, string_app_assoc.
Qed.

(** A loop whose body only appends to the text gives the same result behind
    any prefix. *)
Lemma for_each_prefix {A} (xs : list A) (body : string -> A -> res string)
    (p : string) :
  (forall s x, body (p +:+ s) x = String.append p <$> body s x) ->
  forall s, for_each xs body (p +:+ s) = String.append p <$> for_each xs body s.
Proof.
  intros Hbody. induction xs as [|x xs IH]; intros s; cbn [for_each].
  - reflexivity.
  - rewrite Hbody. destruct (body s x) as [s'|e]; cbn; [apply IH | reflexivity].
Qed.

Lemma examine_pixels_prefix (im : ndarray) (r : region) (y : Z) (sub : Z -> list Z)
    (p s : string) :
  examine_pixels im r y sub (p +:+ s)
  = String.append p <$> examine_pixels im r y sub s.
Proof.
  unfold examine_pixels. apply for_each_prefix. intros t x.
  destruct (getitem im (y :: sub x)) as [v|e]; cbn; [|reflexivity].
  now rewrite string_app_assoc.
Qed.

Lemma examine_body_prefix (im : ndarray) (r : region) (p s : string) :
  examine_body im r (p +:+ s) = String.append p <$> examine_body im r s.
Proof.
  unfold examine_body. apply for_each_prefix. intros t y.
  destruct (r_nc r =? 0).
  - rewrite string_app_assoc, examine_pixels_prefix.
    destruct (examine_pixels im r y _ _) as [u|e]; cbn; [|reflexivity].
    now rewrite string_app_assoc.
  - rewrite string_app_assoc. apply for_each_prefix. intros u c.
    destruct (0 <? c).
    + rewrite string_app_assoc, examine_pixels_prefix.
      destruct (examine_pixels im r y _ _) as [v|e]; cbn; [|reflexivity].
      now rewrite string_app_assoc.
    + rewrite examine_pixels_prefix.
      destruct (examine_pixels im r y _ _) as [v|e]; cbn; [|reflexivity].
      now rewrite string_app_assoc.
Qed.

(** ** examine: title, region and text *)

(** X1.  A title only puts one line in front: with a title, [examine]
    returns the title, a newline and then exactly what it returns without a
    title, and it raises the same exception when it raises.  This holds for
    every array, whatever its rank. *)
Theorem examine_title_prefix (im : ndarray) (aty atx : option Z) (rows cols : Z)
    (t : string) :
  examine im aty atx rows cols (Some t)
  = String.append (t +:+ nl) <$> examine im aty atx rows cols None.
Proof.
  unfold examine. destruct (examine_region im aty atx rows cols) as [r|e];
    [|reflexivity].
  cbn [mbind res_bind].
  rewrite <- examine_body_prefix. f_equal.
  unfold examine_heading. cbn [String.append].
  now rewrite !string_app_assoc.
Qed.

(** The region of an image of rank 2 or more, written out. *)
Lemma examine_region_shape (im : ndarray) (ny nx : Z) (rest : list Z)
    (aty atx : option Z) (rows cols : Z) :
  shape im = ny :: nx :: rest ->
  examine_region im aty atx rows cols
  = Ok (let aty := match aty with None => ny / 2 | Some v => v end in
        let atx := match atx with None => nx / 2 | Some v => v end in
        let ylo := Z.max (aty - rows / 2) 0 in
        let yhi := Z.min (ylo + rows) ny in
        let xlo := Z.max (atx - cols / 2) 0 in
        let xhi := Z.min (xlo + cols) nx in
        mk_region ny nx (hd 0 rest) aty atx ylo yhi (yhi - ylo) xlo xhi (xhi - xlo)).
Proof.
  intros E. unfold examine_region, shape_at, rank. rewrite E.
  destruct rest as [|nc rest]; [reflexivity|].
  cbn [nth_error mbind res_bind length hd].
  replace (Z.of_nat (S (S (S (length rest)))) <? 3) with false
    by (symmetry; apply Z.ltb_ge; lia).
  reflexivity.
Qed.

(** Where the region lies and how large it is. *)
Lemma examine_region_bounds (im : ndarray) (ny nx : Z) (rest : list Z)
    (aty atx : option Z) (rows cols : Z) :
  shape im = ny :: nx :: rest -> 0 <= ny -> 0 <= nx ->
  exists r, examine_region im aty atx rows cols = Ok r /\
    r_ny r = ny /\ r_nx r = nx /\
    0 <= r_ylo r /\ r_yhi r <= ny /\ 0 <= r_xlo r /\ r_xhi r <= nx /\
    r_rows r = r_yhi r - r_ylo r /\ r_cols r = r_xhi r - r_xlo r /\
    r_rows r <= rows /\ r_rows r <= ny /\ r_cols r <= cols /\ r_cols r <= nx /\
    (0 <= r_rows r <-> 0 <= rows /\ r_ylo r <= ny) /\
    (0 <= r_cols r <-> 0 <= cols /\ r_xlo r <= nx).
Proof.
  intros E Hy Hx. eexists. split; [apply (examine_region_shape _ _ _ _ _ _ _ _ E)|].
  cbn [r_ny r_nx r_ylo r_yhi r_xlo r_xhi r_rows r_cols]. lia.
Qed.

(** X2.  For an image of rank 2 or more the region lies inside the image:
    0 <= ylo, yhi <= ny, 0 <= xlo, xhi <= nx; the realized row and column
    counts are yhi - ylo and xhi - xlo, never more than what was asked for and
    never more than the extent; and a realized count is non-negative exactly
    when the count asked for is non-negative and the lower bound is not
    beyond the extent. *)
Theorem examine_region_inside (im : ndarray) (ny nx : Z) (rest : list Z)
    (aty atx : option Z) (rows cols : Z) :
  shape im = ny :: nx :: rest -> 0 <= ny -> 0 <= nx ->
  exists r, examine_region im aty atx rows cols = Ok r /\
    r_ny r = ny /\ r_nx r = nx /\
    0 <= r_ylo r /\ r_yhi r <= ny /\ 0 <= r_xlo r /\ r_xhi r <= nx /\
    r_rows r = r_yhi r - r_ylo r /\ r_cols r = r_xhi r - r_xlo r /\
    r_rows r <= rows /\ r_rows r <= ny /\ r_cols r <= cols /\ r_cols r <= nx /\
    (0 <= r_rows r <-> 0 <= rows /\ r_ylo r <= ny) /\
    (0 <= r_cols r <-> 0 <= cols /\ r_xlo r <= nx).
Proof. exact (examine_region_bounds im ny nx rest aty atx rows cols). Qed.

Lemma examine_region_inside_witness :
  exists r, examine_region testimage (Some 12) (Some (-2)) 5 4 = Ok r /\
    r_ny r = 13 /\ r_nx r = 10 /\
    0 <= r_ylo r /\ r_yhi r <= 13 /\ 0 <= r_xlo r /\ r_xhi r <= 10 /\
    r_rows r = r_yhi r - r_ylo r /\ r_cols r = r_xhi r - r_xlo r /\
    r_rows r <= 5 /\ r_rows r <= 13 /\ r_cols r <= 4 /\ r_cols r <= 10 /\
    (0 <= r_rows r <-> 0 <= 5 /\ r_ylo r <= 13) /\
    (0 <= r_cols r <-> 0 <= 4 /\ r_xlo r <= 10).
Proof.
  apply (examine_region_inside testimage 13 10 [] (Some 12) (Some (-2)) 5 4);
    [reflexivity | lia | lia].
Defined.

(** X3.  When the window asked for fits, that is when the centre has
    rows // 2 rows above it and the rest below it inside the image, the
    region is exactly that window: it starts rows // 2 above the centre and
    has the row count asked for.  Columns likewise. *)
Theorem examine_region_fits (im : ndarray) (ny nx : Z) (rest : list Z)
    (aty atx rows cols : Z) :
  shape im = ny :: nx :: rest ->
  exists r, examine_region im (Some aty) (Some atx) rows cols = Ok r /\
    (0 <= rows -> 0 <= aty - rows / 2 -> aty - rows / 2 + rows <= ny ->
       r_ylo r = aty - rows / 2 /\ r_yhi r = r_ylo r + rows /\ r_rows r = rows) /\
    (0 <= cols -> 0 <= atx - cols / 2 -> atx - cols / 2 + cols <= nx ->
       r_xlo r = atx - cols / 2 /\ r_xhi r = r_xlo r + cols /\ r_cols r = cols).
Proof.
  intros E. eexists. split; [apply (examine_region_shape _ _ _ _ _ _ _ _ E)|].
  cbn [r_ylo r_yhi r_xlo r_xhi r_rows r_cols]. lia.
Qed.

Lemma examine_region_fits_witness :
  exists r, examine_region testimage (Some 6) (Some 5) 5 4 = Ok r /\
    r_ylo r = 4 /\ r_yhi r = 9 /\ r_rows r = 5 /\
    r_xlo r = 3 /\ r_xhi r = 7 /\ r_cols r = 4.
Proof.
  destruct (examine_region_fits testimage 13 10 [] 6 5 5 4 eq_refl)
    as (r & Hr & Hrows & Hcols).
  exists r. split; [exact Hr|].
  destruct Hrows as (H1 & H2 & H3); [lia | vm_compute; discriminate
                                    | vm_compute; discriminate |].
  destruct Hcols as (H4 & H5 & H6); [lia | vm_compute; discriminate
                                    | vm_compute; discriminate |].
  rewrite H2, H5, H1, H4, H3, H6. repeat split; reflexivity.
Defined.

(** X4.  An array of rank 0 or 1 makes [examine] raise [IndexError], from
    reading [im.shape[0]] or [im.shape[1]], whatever the other arguments. *)
Theorem examine_low_rank (im : ndarray) (aty atx : option Z) (rows cols : Z)
    (title : option string) :
  rank im < 2 -> examine im aty atx rows cols title = Raise IndexError.
Proof.
  unfold rank, examine, examine_region, shape_at.
  destruct (shape im) as [|n [|m l]]; cbn [length nth_error]; intros H;
    [reflexivity | reflexivity | lia].
Qed.

Lemma examine_low_rank_witness :
  examine (mk_ndarray [4] uint8 [1; 2; 3; 4]) None None 15 15 None
  = Raise IndexError.
Proof.
  apply (examine_low_rank (mk_ndarray [4] uint8 [1; 2; 3; 4])). vm_compute.
  reflexivity.
Defined.

Lemma examine_default_region_witness :
  exists r, examine_region arrowhead None None 15 15 = Ok r /\
    r_aty r = 10 / 2 /\ r_atx r = 9 / 2 /\
    (r_ylo r = 0 /\ r_yhi r = 10 <-> 10 <= 15) /\
    (r_xlo r = 0 /\ r_xhi r = 9 <-> 9 <= 15).
Proof.
  apply (examine_default_region arrowhead 10 9); [reflexivity | lia | lia].
Defined.

(** What a subscript inside the bounds reads. *)
Lemma getitem2_value (im : ndarray) (ny nx y x : Z) :
  well_formed im -> shape im = [ny; nx] ->
  0 <= y < ny -> 0 <= x < nx ->
  getitem im [y; x] = Ok (pixel2 im y x).
Proof.
  intros [_ Hlen] Hshape Hy Hx. unfold getitem, pixel2. rewrite Hshape in *.
  cbn [offset nth]. rewrite (norm_index_in ny y Hy). cbn [mbind res_bind].
  rewrite (norm_index_in nx x Hx). cbn [mbind res_bind].
  unfold size_of in Hlen. cbn [fold_right] in Hlen.
  replace ((0 * ny + y) * nx + x) with (y * nx + x) by ring.
  destruct (nth_error (data im) (Z.to_nat (y * nx + x))) as [v|] eqn:E.
  - now rewrite (nth_error_nth _ _ 0 E).
  - apply nth_error_None in E. exfalso.
    assert (y * nx <= (ny - 1) * nx) by (apply Z.mul_le_mono_nonneg_r; lia).
    assert (0 <= y * nx) by (apply Z.mul_nonneg_nonneg; lia).
    lia.
Qed.

Lemma getitem3_value (im : ndarray) (ny nx nc y x c : Z) :
  well_formed im -> shape im = [ny; nx; nc] ->
  0 <= y < ny -> 0 <= x < nx -> 0 <= c < nc ->
  getitem im [y; x; c] = Ok (pixel3 im y x c).
Proof.
  intros [_ Hlen] Hshape Hy Hx Hc. unfold getitem, pixel3. rewrite Hshape in *.
  cbn [offset nth]. rewrite (norm_index_in ny y Hy). cbn [mbind res_bind].
  rewrite (norm_index_in nx x Hx). cbn [mbind res_bind].
  rewrite (norm_index_in nc c Hc). cbn [mbind res_bind].
  unfold size_of in Hlen. cbn [fold_right] in Hlen.
  replace (((0 * ny + y) * nx + x) * nc + c) with ((y * nx + x) * nc + c) by ring.
  destruct (nth_error (data im) (Z.to_nat ((y * nx + x) * nc + c))) as [v|] eqn:E.
  - now rewrite (nth_error_nth _ _ 0 E).
  - apply nth_error_None in E. exfalso.
    assert (y * nx <= (ny - 1) * nx) by (apply Z.mul_le_mono_nonneg_r; lia).
    assert (0 <= y * nx) by (apply Z.mul_nonneg_nonneg; lia).
    assert ((y * nx + x) * nc <= (ny * nx - 1) * nc)
      by (apply Z.mul_le_mono_nonneg_r; lia).
    assert (0 <= (y * nx + x) * nc) by (apply Z.mul_nonneg_nonneg; lia).
    lia.
Qed.

Lemma examine_pixels_text (im : ndarray) (r : region) (y : Z) (sub : Z -> list Z)
    (value : Z -> Z) (text : string) :
  (forall x, r_xlo r <= x < r_xhi r -> getitem im (y :: sub x) = Ok (value x)) ->
  examine_pixels im r y sub text = Ok (text +:+ pixels_text r value).
Proof.
  intros Hget. unfold examine_pixels, pixels_text.
  apply (for_each_append _ _ (fun x => Fmt.d4 (value x))).
  intros s x Hx. apply range_bounds in Hx. now rewrite (Hget x Hx).
Qed.

(** The rows of a monochrome image, one line each. *)
Lemma examine_mono_rows (im : ndarray) (ny nx : Z) (aty atx : option Z)
    (rows cols : Z) (title : option string) :
  well_formed im -> shape im = [ny; nx] ->
  exists r, examine_region im aty atx rows cols = Ok r /\
    examine im aty atx rows cols title
    = Ok (examine_heading r title
          +:+ join (map (mono_row_text im r) (range (r_ylo r) (r_yhi r)))).
Proof.
  intros Hwf E.
  destruct (examine_region_bounds im ny nx [] aty atx rows cols E)
    as (r & Hr & _ & _ & Hylo & Hyhi & Hxlo & Hxhi & _);
    [destruct Hwf as [Hs _]; rewrite E in Hs; inversion Hs; assumption
    |destruct Hwf as [Hs _]; rewrite E in Hs; inversion Hs as [|? ? ? Hs'];
     inversion Hs'; assumption|].
  assert (Hnc : r_nc r = 0).
  { rewrite (examine_region_shape _ _ _ _ _ _ _ _ E) in Hr. now inversion Hr. }
  exists r. split; [exact Hr|]. unfold examine. rewrite Hr. cbn [mbind res_bind].
  unfold examine_body. apply for_each_append. intros s y Hy.
  apply range_bounds in Hy. rewrite Hnc. cbn [Z.eqb].
  rewrite (examine_pixels_text im r y (fun x => [x]) (pixel2 im y)).
  - cbn [mbind res_bind mret res_ret]. unfold mono_row_text.
    now rewrite !string_app_assoc.
  - intros x Hx. apply (getitem2_value im ny nx); [assumption..|lia|lia].
Qed.

(** X5.  The text for a monochrome image: the heading, then for each row of
    the region, in order, one line made of the row number in 5 columns, a
    bar and a blank, the samples of that row at the columns of the region in
    4 columns each, and a newline. *)
Theorem examine_mono_text (im : ndarray) (ny nx : Z) (aty atx : option Z)
    (rows cols : Z) (title : option string) :
  well_formed im -> shape im = [ny; nx] ->
  exists r, examine_region im aty atx rows cols = Ok r /\
    examine im aty atx rows cols title
    = Ok (examine_heading r title
          +:+ join (map (mono_row_text im r) (range (r_ylo r) (r_yhi r)))).
Proof. exact (examine_mono_rows im ny nx aty atx rows cols title). Qed.

Lemma examine_mono_text_witness :
  exists r, examine_region testimage (Some 2) (Some 3) 2 3 = Ok r /\
    examine testimage (Some 2) (Some 3) 2 3 None
    = Ok (examine_heading r None
          +:+ join (map (mono_row_text testimage r) (range (r_ylo r) (r_yhi r)))).
Proof.
  apply (examine_mono_text testimage 13 10).
  - split; [repeat constructor; lia | reflexivity].
  - reflexivity.
Defined.

(** X6.  The text for a multi-channel image with at least one channel: no
    exception is raised; after the heading come, for each row of the region,
    the row number, a bar and a blank, and then one line per channel with
    the samples of that channel, every line but the first of a row headed by
    five blanks, a bar and a blank. *)
Theorem examine_colour_text (im : ndarray) (ny nx nc : Z) (aty atx : option Z)
    (rows cols : Z) (title : option string) :
  well_formed im -> shape im = [ny; nx; nc] -> 0 < nc ->
  exists r, examine_region im aty atx rows cols = Ok r /\ r_nc r = nc /\
    examine im aty atx rows cols title
    = Ok (examine_heading r title
          +:+ join (map (colour_row_text im r) (range (r_ylo r) (r_yhi r)))).
Proof.
  intros Hwf E Hc.
  assert (Hpos : 0 <= ny /\ 0 <= nx).
  { destruct Hwf as [Hs _]. rewrite E in Hs. inversion Hs as [|? ? ? Hs'].
    inversion Hs'. now split. }
  destruct (examine_region_bounds im ny nx [nc] aty atx rows cols E)
    as (r & Hr & _ & _ & Hylo & Hyhi & Hxlo & Hxhi & _); [lia | lia |].
  assert (Hnc : r_nc r = nc).
  { rewrite (examine_region_shape _ _ _ _ _ _ _ _ E) in Hr. now inversion Hr. }
  exists r. split; [exact Hr|]. split; [exact Hnc|].
  unfold examine. rewrite Hr. cbn [mbind res_bind].
  unfold examine_body. apply for_each_append. intros s y Hy.
  apply range_bounds in Hy.
  replace (r_nc r =? 0) with false by (symmetry; apply Z.eqb_neq; lia).
  rewrite (for_each_append _ _ (channel_text im r y)).
  - unfold colour_row_text. now rewrite !string_app_assoc.
  - intros t c Hin. apply range_bounds in Hin.
    assert (Hget : forall x, r_xlo r <= x < r_xhi r ->
              getitem im [y; x; c] = Ok (pixel3 im y x c)).
    { intros x Hx. apply (getitem3_value im ny nx nc); [assumption..|lia|lia|lia]. }
    unfold channel_text. destruct (0 <? c).
    + rewrite (examine_pixels_text im r y (fun x => [x; c])
                 (fun x => pixel3 im y x c) _ Hget).
      cbn [mbind res_bind mret res_ret]. now rewrite !string_app_assoc.
    + rewrite (examine_pixels_text im r y (fun x => [x; c])
                 (fun x => pixel3 im y x c) _ Hget).
      cbn [mbind res_bind mret res_ret]. now rewrite !string_app_assoc.
Qed.

Lemma examine_colour_text_witness :
  exists r, examine_region rgb_2x2 None None 15 15 = Ok r /\ r_nc r = 3 /\
    examine rgb_2x2 None None 15 15 (Some "RGB")
    = Ok (examine_heading r (Some "RGB")
          +:+ join (map (colour_row_text rgb_2x2 r) (range (r_ylo r) (r_yhi r)))).
Proof.
  apply (examine_colour_text rgb_2x2 2 2 3).
  - split; [repeat constructor; lia | reflexivity].
  - reflexivity.
  - lia.
Defined.

(** ** examine: alignment *)

(** Printing a natural number below 10 ^ k in front of [s] adds at most [k]
    characters. *)
Lemma pretty_N_go_length (x : N) :
  forall (k : nat) (s : string),
    (x < 10 ^ N.of_nat k)%N ->
    (String.length (pretty_N_go x s) <= k + String.length s)%nat.
Proof.
  induction (N.lt_wf_0 x) as [x _ IH]. intros k s Hx.
  destruct (N.eq_dec x 0%N) as [->|Hpos].
  - rewrite pretty_N_go_0. lia.
  - destruct k as [|k].
    + cbn in Hx. lia.
    + rewrite pretty_N_go_step by lia.
      assert (Hdiv : (x `div` 10 < 10 ^ N.of_nat k)%N).
      { apply N.Div0.div_lt_upper_bound.
        rewrite Nat2N.inj_succ, N.pow_succ_r' in Hx. exact Hx. }
      specialize (IH (x `div` 10)%N ltac:(apply N.div_lt; lia) k
                     (String (pretty_N_char (x `mod` 10)) s) Hdiv).
      cbn [String.length] in IH. lia.
Qed.

Lemma d_length_nonneg (v : Z) (k : nat) :
  0 <= v < 10 ^ Z.of_nat k -> (String.length (Fmt.d v) <= Nat.max 1 k)%nat.
Proof.
  intros [H0 Hk]. unfold Fmt.d, pretty, pretty_Z.
  destruct v as [|p|p]; [cbn; lia | | lia].
  unfold pretty, pretty_positive, pretty, pretty_N.
  destruct (decide (N.pos p = 0%N)) as [E|_]; [discriminate|].
  pose proof (pretty_N_go_length (N.pos p) k "") as H.
  cbn [String.length] in H.
  assert ((N.pos p < 10 ^ N.of_nat k)%N).
  { apply N2Z.inj_lt. rewrite N2Z.inj_pow, nat_N_Z. exact Hk. }
  specialize (H ltac:(assumption)). lia.
Qed.

(** Every row number from 0 to 99999 fills its ["%5d"] field exactly. *)
Lemma d5_width (v : Z) : 0 <= v <= 99999 -> String.length (Fmt.d5 v) = 5%nat.
Proof.
  intros Hv. unfold Fmt.d5. rewrite rjust_length.
  pose proof (d_length_nonneg v 5 ltac:(change (10 ^ Z.of_nat 5) with 100000; lia)).
  lia.
Qed.

Lemma join_fixed_width {A} (f : A -> string) (xs : list A) (w : nat) :
  (forall x, In x xs -> String.length (f x) = w) ->
  String.length (join (map f xs)) = (w * length xs)%nat.
Proof.
  induction xs as [|x xs IH]; intros H; cbn [map length].
  - change (join []) with "". cbn. lia.
  - rewrite join_cons, string_app_length, (H x) by now left.
    rewrite IH by (intros; apply H; now right). lia.
Qed.

Lemma range_length (lo hi : Z) : length (range lo hi) = Z.to_nat (hi - lo).
Proof. unfold range. now rewrite length_map, length_seq. Qed.

(** Checking the samples of an image by computation. *)
Lemma samples_in_range (l : list Z) (lo hi : Z) :
  forallb (fun v => (lo <=? v) && (v <=? hi)) l = true ->
  Forall (fun v => lo <= v <= hi) l.
Proof.
  intros H. apply List.Forall_forall. intros v Hv.
  rewrite forallb_forall in H. specialize (H v Hv).
  apply andb_true_iff in H. destruct H as [H1 H2].
  apply Z.leb_le in H1. apply Z.leb_le in H2. lia.
Qed.

(** The heading is the summary, the line of column numbers and the rule. *)
Lemma examine_heading_lines (r : region) (title : option string) :
  0 <= r_xlo r -> r_xhi r <= 10000 -> r_cols r = r_xhi r - r_xlo r ->
  examine_heading r title = summary_text r title +:+ column_line r +:+ rule_line r.
Proof.
  intros Hlo Hhi Hcols.
  unfold examine_heading, summary_text, column_line, rule_line.
  rewrite fold_left_append.
  change ("" +:+ join (map Fmt.d4 (range (r_xlo r) (r_xhi r))))
    with (join (map Fmt.d4 (range (r_xlo r) (r_xhi r)))).
  rewrite (join_fixed_width Fmt.d4 _ 4).
  - rewrite range_length, Hcols.
    destruct title; cbn [String.append]; now rewrite !string_app_assoc.
  - intros x Hx. apply range_bounds in Hx. apply d4_width. lia.
Qed.

(** X7.  For a monochrome image with at most 100000 rows, at most 10000
    columns and samples from -999 to 9999 (every [uint8] image of that size),
    the table is aligned: after the summary come the line of column numbers,
    the rule and one line per row of the region, and each of these lines,
    newline included, is 8 + 4 * cols characters long, [cols] being the
    realized column count. *)
Theorem examine_mono_aligned (im : ndarray) (ny nx : Z) (aty atx : option Z)
    (rows cols : Z) (title : option string) :
  well_formed im -> shape im = [ny; nx] -> ny <= 100000 -> nx <= 10000 ->
  Forall (fun v => -999 <= v <= 9999) (data im) ->
  exists r, examine_region im aty atx rows cols = Ok r /\
    examine im aty atx rows cols title
    = Ok (summary_text r title +:+ column_line r +:+ rule_line r
          +:+ join (map (mono_row_text im r) (range (r_ylo r) (r_yhi r)))) /\
    String.length (column_line r) = (8 + 4 * Z.to_nat (r_cols r))%nat /\
    String.length (rule_line r) = (8 + 4 * Z.to_nat (r_cols r))%nat /\
    (forall y, In y (range (r_ylo r) (r_yhi r)) ->
       String.length (mono_row_text im r y) = (8 + 4 * Z.to_nat (r_cols r))%nat).
Proof.
  intros Hwf E Hny Hnx Hdata.
  assert (Hpos : 0 <= ny /\ 0 <= nx).
  { destruct Hwf as [Hs _]. rewrite E in Hs. inversion Hs as [|? ? ? Hs'].
    inversion Hs'. now split. }
  destruct (examine_mono_rows im ny nx aty atx rows cols title Hwf E)
    as (r & Hr & Htext).
  destruct (examine_region_bounds im ny nx [] aty atx rows cols E)
    as (r' & Hr' & _ & _ & Hylo & Hyhi & Hxlo & Hxhi & _ & Hcols & _);
    [lia | lia |].
  assert (r' = r) by congruence. subst r'.
  assert (Hcolw : String.length (join (map Fmt.d4 (range (r_xlo r) (r_xhi r))))
                  = (4 * Z.to_nat (r_cols r))%nat).
  { rewrite (join_fixed_width Fmt.d4 _ 4), range_length, Hcols; [reflexivity|].
    intros x Hx. apply range_bounds in Hx. apply d4_width. lia. }
  exists r. split; [exact Hr|]. split; [|split; [|split]].
  - rewrite Htext, (examine_heading_lines r title) by lia.
    now rewrite !string_app_assoc.
  - unfold column_line. rewrite !string_app_length, Hcolw.
    unfold start, nl. cbn [String.length]. lia.
  - unfold rule_line. rewrite !string_app_length, fmt_repeat_length.
    unfold start, nl. cbn [String.length]. lia.
  - intros y Hy. apply range_bounds in Hy.
    unfold mono_row_text, pixels_text.
    rewrite !string_app_length, d5_width by lia.
    rewrite (join_fixed_width (fun x => Fmt.d4 (pixel2 im y x)) _ 4).
    + rewrite range_length, Hcols. unfold nl. cbn [String.length]. lia.
    + intros x _. apply d4_width. unfold pixel2.
      destruct (nth_in_or_default (Z.to_nat (y * nth 1 (shape im) 0 + x))
                  (data im) 0) as [Hin | ->]; [|lia].
      rewrite List.Forall_forall in Hdata. now apply Hdata.
Qed.

Lemma examine_mono_aligned_witness :
  exists r, examine_region testimage (Some 0) None 4 20 = Ok r /\
    examine testimage (Some 0) None 4 20 (Some "Test image")
    = Ok (summary_text r (Some "Test image") +:+ column_line r +:+ rule_line r
          +:+ join (map (mono_row_text testimage r) (range (r_ylo r) (r_yhi r)))) /\
    String.length (column_line r) = (8 + 4 * Z.to_nat (r_cols r))%nat /\
    String.length (rule_line r) = (8 + 4 * Z.to_nat (r_cols r))%nat /\
    (forall y, In y (range (r_ylo r) (r_yhi r)) ->
       String.length (mono_row_text testimage r y)
       = (8 + 4 * Z.to_nat (r_cols r))%nat).
Proof.
  apply (examine_mono_aligned testimage 13 10).
  - split; [repeat constructor; lia | reflexivity].
  - reflexivity.
  - lia.
  - lia.
  - apply samples_in_range. vm_compute. reflexivity.
Defined.

(** ** Array literals *)





(** ** Module initialisation *)

Lemma lower_ascii_idem (c : ascii) :
  Fmt.lower_ascii (Fmt.lower_ascii c) = Fmt.lower_ascii c.
Proof. destruct c as [[] [] [] [] [] [] [] []]; reflexivity. Qed.

Lemma lower_idem (s : string) : Fmt.lower (Fmt.lower s) = Fmt.lower s.
Proof.
  induction s as [|c s IH]; [reflexivity|].
  cbn [Fmt.lower]. now rewrite lower_ascii_idem, IH.
Qed.











(** ** Display *)

(** [display] never raises.  It shows the image in the window named
    by the title, or by [sys.argv[0]] when no title is given, waits for the
    delay, and destroys that window only when asked to; it prints nothing,
    runs no command and leaves the files and the module globals alone. *)
Theorem display_run (im : ndarray) (title : option string) (delay : Z)
    (destroy : bool) (w : World) :
  exists w', display im title delay destroy w = (w', Ok tt) /\
    effects w' = (effects w ++ [Imshow (window_title title w) im; WaitKey delay]
                    ++ (if destroy then [DestroyWindow (window_title title w)]
                        else []))%list /\
    files w' = files w /\ next_inode w' = next_inode w /\
    DEBUG w' = DEBUG w /\ ENVIRONMENT w' = ENVIRONMENT w /\
    systype w' = systype w /\ argv0 w' = argv0 w.
Proof.
  destruct title, destroy; eexists; (split; [reflexivity|]); cbn;
    repeat split; now rewrite <- !app_assoc.
Qed.

(** ** The dispatcher and the terminal-graphics path, further *)

Lemma ddisplay_unfold (h : Host) (im : ndarray) (title : string) (delay : Z)
    (destroy : bool) (w : World) :
  ddisplay h im title delay destroy w
  = if DEBUG w then
      (if bool_decide ("sixel16" ∈ ENVIRONMENT w)
          && negb (String.eqb (systype w) "Windows")
       then display_sixel h im title 16
       else if bool_decide ("sixel256" ∈ ENVIRONMENT w)
               && negb (String.eqb (systype w) "Windows")
       then display_sixel h im title 256
       else display im (Some title) delay destroy) w
    else (w, Ok tt).
Proof.
  unfold ddisplay, debugging, get, mbind, M_bind. destruct (DEBUG w); reflexivity.
Qed.

(** X11.  In every world, whatever the debug flag, the keywords and the
    system, [ddisplay] leaves the file system and the module globals as they
    were and only adds to the effects, provided the temporary name is not in
    use when it is called. *)
Theorem ddisplay_frame (h : Host) (im : ndarray) (title : string) (delay : Z)
    (destroy : bool) (w : World) :
  files w !! (tmp_stem h +:+ ".png") = None ->
  exists w' r new, ddisplay h im title delay destroy w = (w', r) /\
    files w' = files w /\ DEBUG w' = DEBUG w /\
    ENVIRONMENT w' = ENVIRONMENT w /\
    effects w' = (effects w ++ new)%list.
Proof.
  intros Hfresh. rewrite ddisplay_unfold.
  destruct (DEBUG w) eqn:Hd.
  - destruct (_ && _).
    + destruct (display_sixel_run h im title 16 w Hfresh)
        as (w' & Hrun & Heff & Hf & HD & HE).
      exists w', (sixel_result h), (sixel_effects h title 16 (next_inode w)).
      rewrite Hrun, Hf, HD, HE, Heff, Hd. repeat split.
    + destruct (_ && _).
      * destruct (display_sixel_run h im title 256 w Hfresh)
          as (w' & Hrun & Heff & Hf & HD & HE).
        exists w', (sixel_result h), (sixel_effects h title 256 (next_inode w)).
        rewrite Hrun, Hf, HD, HE, Heff, Hd. repeat split.
      * destruct (display_run im (Some title) delay destroy w)
          as (w' & Hrun & Heff & Hf & _ & HD & HE & _).
        exists w', (Ok tt). eexists.
        rewrite Hrun, Hf, HD, HE, Heff, Hd. repeat split.
  - exists w, (Ok tt), []. rewrite Hd, app_nil_r. repeat split.
Qed.

Lemma ddisplay_frame_witness :
  exists w' r new,
    ddisplay host_no_img2sixel testimage "Test" 0 true world_debug_sixel256
    = (w', r) /\
    files w' = files world_debug_sixel256 /\
    DEBUG w' = DEBUG world_debug_sixel256 /\
    ENVIRONMENT w' = ENVIRONMENT world_debug_sixel256 /\
    effects w' = (effects world_debug_sixel256 ++ new)%list.
Proof.
  apply (ddisplay_frame host_no_img2sixel testimage "Test" 0 true
           world_debug_sixel256).
  reflexivity.
Defined.

(** X12.  On Windows the terminal-graphics keywords are ignored: with
    debugging on, [ddisplay] always takes the pop-up path, so it prints
    nothing, creates no file and runs no command. *)
Theorem ddisplay_windows (h : Host) (im : ndarray) (title : string) (delay : Z)
    (destroy : bool) (w : World) :
  DEBUG w = true -> systype w = "Windows" ->
  ddisplay h im title delay destroy w = display im (Some title) delay destroy w /\
  exists w', ddisplay h im title delay destroy w = (w', Ok tt) /\
    effects w' = (effects w ++ [Imshow title im; WaitKey delay]
                    ++ (if destroy then [DestroyWindow title] else []))%list /\
    files w' = files w.
Proof.
  intros Hd Hsys. rewrite ddisplay_unfold, Hd, Hsys.
  cbn [String.eqb Ascii.eqb Bool.eqb negb]. rewrite !andb_false_r.
  split; [reflexivity|].
  destruct (display_run im (Some title) delay destroy w)
    as (w' & Hrun & Heff & Hf & _).
  exists w'. now rewrite Hrun.
Qed.

Lemma ddisplay_windows_witness :
  ddisplay host_ok arrowhead "Arrowhead" 0 true
    (module_init {[ "SXCV" := "debug sixel16 sixel256" ]} "Windows" "lab1.py" ∅ 0)
  = display arrowhead (Some "Arrowhead") 0 true
      (module_init {[ "SXCV" := "debug sixel16 sixel256" ]} "Windows" "lab1.py" ∅ 0).
Proof.
  apply (ddisplay_windows host_ok arrowhead "Arrowhead" 0 true
           (module_init {[ "SXCV" := "debug sixel16 sixel256" ]} "Windows"
              "lab1.py" ∅ 0)); reflexivity.
Defined.

(** X13.  The exit status of the command is ignored: two runs of
    [display_sixel] that differ only in the status the shell hands back give
    the same result, the same file system and, the status apart, the same
    effects. *)
Theorem display_sixel_ignores_status (h1 h2 : Host) (im : ndarray) (title : string)
    (levels : Z) (w : World) :
  tmp_stem h1 = tmp_stem h2 -> imwrite_result h1 = imwrite_result h2 ->
  files w !! (tmp_stem h1 +:+ ".png") = None ->
  exists w1 w2 r,
    display_sixel h1 im title levels w = (w1, r) /\
    display_sixel h2 im title levels w = (w2, r) /\
    files w1 = files w2 /\
    map forget_status (effects w1) = map forget_status (effects w2).
Proof.
  intros Hstem Hwr Hfresh.
  destruct (display_sixel_run h1 im title levels w Hfresh)
    as (w1 & Hrun1 & Heff1 & Hf1 & _).
  rewrite Hstem in Hfresh.
  destruct (display_sixel_run h2 im title levels w Hfresh)
    as (w2 & Hrun2 & Heff2 & Hf2 & _).
  exists w1, w2, (sixel_result h1). split; [exact Hrun1|]. split; [|split].
  - rewrite Hrun2. f_equal. unfold sixel_result. now rewrite Hstem, Hwr.
  - now rewrite Hf1, Hf2.
  - rewrite Heff1, Heff2, !map_app. f_equal.
    unfold sixel_effects. rewrite Hstem, Hwr.
    destruct (imwrite_result h2); reflexivity.
Qed.

Lemma display_sixel_ignores_status_witness :
  exists w1 w2 r,
    display_sixel (mk_Host "/tmp/tmpk3" Written 0) arrowhead "Arrowhead" 16
      world_debug_sixel256 = (w1, r) /\
    display_sixel host_no_img2sixel arrowhead "Arrowhead" 16
      world_debug_sixel256 = (w2, r) /\
    files w1 = files w2 /\
    map forget_status (effects w1) = map forget_status (effects w2).
Proof.
  apply (display_sixel_ignores_status (mk_Host "/tmp/tmpk3" Written 0)
           host_no_img2sixel arrowhead "Arrowhead" 16 world_debug_sixel256);
    reflexivity.
Defined.

(** X14.  When [cv2.imwrite] returns [False] and leaves no file,
    [display_sixel] still runs the command and then raises
    [FileNotFoundError] from [os.remove], without printing the closing empty
    line; when [cv2.imwrite] raises, its exception comes out and no command
    is run.  In both cases the file system is left as it was. *)
Theorem display_sixel_write_failure (h : Host) (im : ndarray) (title : string)
    (levels : Z) (w : World) :
  files w !! (tmp_stem h +:+ ".png") = None ->
  (imwrite_result h = NotWritten ->
     exists w', display_sixel h im title levels w
                = (w', Raise (FileNotFoundError (tmp_stem h +:+ ".png"))) /\
       effects w' = (effects w ++
                       [Print (title +:+ ":");
                        FileCreate (tmp_stem h +:+ ".png") (next_inode w);
                        FileUnlink (tmp_stem h +:+ ".png") (next_inode w);
                        Exec (sixel_cmd levels (tmp_stem h +:+ ".png"))
                             (exit_status h)])%list /\
       files w' = files w) /\
  (imwrite_result h = WriteRaises ->
     exists w', display_sixel h im title levels w = (w', Raise CvError) /\
       effects w' = (effects w ++
                       [Print (title +:+ ":");
                        FileCreate (tmp_stem h +:+ ".png") (next_inode w);
                        FileUnlink (tmp_stem h +:+ ".png") (next_inode w)])%list /\
       files w' = files w).
Proof.
  intros Hfresh.
  destruct (display_sixel_run h im title levels w Hfresh)
    as (w' & Hrun & Heff & Hf & _).
  unfold sixel_result, sixel_effects in *.
  split; intros Hw; rewrite Hw in *; exists w'; repeat split; assumption.
Qed.

Lemma display_sixel_write_failure_witness :
  exists w', display_sixel (mk_Host "/tmp/tmpz9" NotWritten 1) arrowhead "A" 256
               world_debug_sixel256
             = (w', Raise (FileNotFoundError "/tmp/tmpz9.png")) /\
    effects w' = [Print "A:"; FileCreate "/tmp/tmpz9.png" 0;
                  FileUnlink "/tmp/tmpz9.png" 0;
                  Exec "img2sixel -p 256 /tmp/tmpz9.png 2>/dev/null" 1] /\
    files w' = files world_debug_sixel256.
Proof.
  apply (proj1 (display_sixel_write_failure (mk_Host "/tmp/tmpz9" NotWritten 1)
                  arrowhead "A" 256 world_debug_sixel256 eq_refl)).
  reflexivity.
Defined.

(** X15.  The debugging calls and the dispatcher together: of two
    [debug_set] in a row the second decides; after [debug_off] a [ddisplay]
    has no effect at all; after [debug_on] a [ddisplay] always shows
    something, its first effect being the title line on the terminal or the
    image in the window named by the title. *)
Theorem debug_then_ddisplay (h : Host) (im : ndarray) (title : string) (delay : Z)
    (destroy : bool) (w : World) :
  files w !! (tmp_stem h +:+ ".png") = None ->
  (forall a b, (debug_set a ≫= fun _ => debug_set b) w = debug_set b w) /\
  (debug_off ≫= fun _ => ddisplay h im title delay destroy) w
  = (set_DEBUG false w, Ok tt) /\
  exists w' r first rest,
    (debug_on ≫= fun _ => ddisplay h im title delay destroy) w = (w', r) /\
    effects w' = (effects w ++ first :: rest)%list /\
    (first = Print (title +:+ ":") \/ first = Imshow title im).
Proof.
  intros Hfresh. split; [intros a b; reflexivity|]. split.
  - rewrite (bind_ok _ _ _ _ _ eq_refl), ddisplay_unfold. reflexivity.
  - rewrite (bind_ok _ _ _ _ _ eq_refl), ddisplay_unfold.
    cbn [set_DEBUG DEBUG ENVIRONMENT systype].
    assert (Hsix : forall levels, exists w' r first rest,
              display_sixel h im title levels (set_DEBUG true w) = (w', r) /\
              effects w' = (effects w ++ first :: rest)%list /\
              (first = Print (title +:+ ":") \/ first = Imshow title im)).
    { intros levels.
      destruct (display_sixel_run h im title levels (set_DEBUG true w) Hfresh)
        as (w' & Hrun & Heff & _).
      exists w', (sixel_result h). do 2 eexists.
      split; [exact Hrun|]. split; [exact Heff|]. now left. }
    destruct (_ && _); [apply Hsix|].
    destruct (_ && _); [apply Hsix|].
    destruct (display_run im (Some title) delay destroy (set_DEBUG true w))
      as (w' & Hrun & Heff & _).
    exists w', (Ok tt). do 2 eexists.
    split; [exact Hrun|]. split; [exact Heff|]. now right.
Qed.

Lemma debug_then_ddisplay_witness :
  (debug_off ≫= fun _ => ddisplay host_ok arrowhead "Arrowhead" 0 true)
    world_debug_sixel256
  = (set_DEBUG false world_debug_sixel256, Ok tt).
Proof.
  apply (proj1 (proj2 (debug_then_ddisplay host_ok arrowhead "Arrowhead" 0 true
                         world_debug_sixel256 eq_refl))).
Defined.

(* ------------------------------------------------------------------------- *)
(** ** plot_histogram *)

Lemma plt_bind_ok {A B} (m : Plt A) (k : A -> Plt B) (st st' : list plot_cmd)
    (a : A) :
  m st = (st', Ok a) -> (m ≫= k) st = k a st'.
Proof. intros E. unfold mbind, Plt_bind. now rewrite E. Qed.

Lemma plt_bind_raise {A B} (m : Plt A) (k : A -> Plt B) (st st' : list plot_cmd)
    (e : exn) :
  m st = (st', Raise e) -> (m ≫= k) st = (st', Raise e).
Proof. intros E. unfold mbind, Plt_bind. now rewrite E. Qed.








(** The calls up to the data, for an abscissa that has a length. *)
Lemma plot_histogram_setup (x y : ndarray) (title : string) (colours : list string)
    (n : Z) (rest : list Z) (st : list plot_cmd) :
  shape x = n :: rest ->
  plot_histogram x y title colours st
  = ((if rank y =? 1 return Plt unit then
        plt (PltBar x y "grey")
      else
        '(nc, np) ← lift (unpack2 (shape y));
        plt_for (range 0 nc) (fun c =>
          row ← lift (getrow y c);
          colour ← lift (list_getitem colours c);
          plt (PltBar x row colour)))
     ≫= fun _ => plt PltShow) (st ++ plot_setup n title)%list.
Proof.
  intros E. unfold plot_histogram.
  do 2 rewrite (plt_bind_ok _ _ _ _ _ eq_refl).
  rewrite (plt_bind_ok _ _ _ (st ++ [PltFigure] ++ [PltGrid])%list n)
    by (unfold lift, len_; now rewrite E, <- app_assoc).
  do 4 rewrite (plt_bind_ok _ _ _ _ _ eq_refl).
  unfold plot_setup. now rewrite <- !app_assoc.
Qed.





(** X18.  What goes wrong before any data is drawn: an abscissa without
    dimensions makes [len (x)] raise [TypeError] once the figure and the grid
    are there; a [y] whose rank is neither 1 nor 2 makes the unpacking of its
    shape raise [ValueError] once the figure is set up.  Nothing is drawn or
    shown in either case. *)
Theorem plot_histogram_bad_input (x y : ndarray) (title : string)
    (colours : list string) (st : list plot_cmd) :
  (shape x = [] ->
     plot_histogram x y title colours st
     = ((st ++ [PltFigure; PltGrid])%list, Raise TypeError)) /\
  (forall n rest, shape x = n :: rest -> rank y <> 1 -> rank y <> 2 ->
     exists msg,
       plot_histogram x y title colours st
       = ((st ++ plot_setup n title)%list, Raise (ValueError msg))).
Proof.
  split.
  - intros E. unfold plot_histogram.
    do 2 rewrite (plt_bind_ok _ _ _ _ _ eq_refl).
    rewrite (plt_bind_raise _ _ _ (st ++ [PltFigure] ++ [PltGrid])%list TypeError)
      by (unfold lift, len_; now rewrite E, <- app_assoc).
    reflexivity.
  - intros n rest E R1 R2. rewrite (plot_histogram_setup _ _ _ _ _ _ _ E).
    replace (rank y =? 1) with false by (symmetry; now apply Z.eqb_neq).
    eexists. apply plt_bind_raise. apply plt_bind_raise.
    unfold lift, unpack2, rank in *.
    destruct (shape y) as [|a [|b [|c l]]]; cbn [length] in *;
      try reflexivity; lia.
Qed.

Lemma plot_histogram_bad_input_witness :
  exists msg,
    plot_histogram levels_4 rgb_2x2 "Histogram" default_colours []
    = (plot_setup 4 "Histogram", Raise (ValueError msg)).
Proof.
  apply (proj2 (plot_histogram_bad_input levels_4 rgb_2x2 "Histogram"
                  default_colours []) 4 [] eq_refl); vm_compute; discriminate.
Defined.

(* ------------------------------------------------------------------------- *)
(** ** Defaults of examine and the masks *)

(** X19.  With every optional argument left out, the counts asked for are
    15 and 15 around the centre of the image: a dimension of at most 15 is
    covered from 0 to its extent, while of a longer dimension exactly 15
    rows (columns) are taken, starting 7 before the centre, so that the
    first ones are left out. *)
Theorem examine_default_covers (im : ndarray) (ny nx : Z) (rest : list Z) :
  shape im = ny :: nx :: rest -> 0 <= ny -> 0 <= nx ->
  exists r, examine_region im None None 15 15 = Ok r /\
    r_aty r = ny / 2 /\ r_atx r = nx / 2 /\
    (ny <= 15 -> r_ylo r = 0 /\ r_yhi r = ny /\ r_rows r = ny) /\
    (15 < ny -> r_ylo r = ny / 2 - 7 /\ 0 < r_ylo r /\ r_rows r = 15) /\
    (nx <= 15 -> r_xlo r = 0 /\ r_xhi r = nx /\ r_cols r = nx) /\
    (15 < nx -> r_xlo r = nx / 2 - 7 /\ 0 < r_xlo r /\ r_cols r = 15).
Proof.
  intros E Hy Hx. eexists. split; [apply (examine_region_shape _ _ _ _ _ _ _ _ E)|].
  cbn [r_aty r_atx r_ylo r_yhi r_xlo r_xhi r_rows r_cols].
  change (15 / 2) with 7.
  pose proof (Z.div_mod ny 2 ltac:(lia)). pose proof (Z.mod_pos_bound ny 2 ltac:(lia)).
  pose proof (Z.div_mod nx 2 ltac:(lia)). pose proof (Z.mod_pos_bound nx 2 ltac:(lia)).
  repeat split; lia.
Qed.

Lemma examine_default_covers_witness :
  exists r, examine_region testimage None None 15 15 = Ok r /\
    r_ylo r = 0 /\ r_yhi r = 13 /\ r_rows r = 13 /\
    r_xlo r = 0 /\ r_xhi r = 10 /\ r_cols r = 10.
Proof.
  destruct (examine_default_covers testimage 13 10 [] eq_refl)
    as (r & Hr & _ & _ & Hrows & _ & Hcols & _); [lia | lia |].
  exists r. split; [exact Hr|].
  destruct Hrows as (H1 & H2 & H3); [lia|].
  destruct Hcols as (H4 & H5 & H6); [lia|].
  repeat split; assumption.
Defined.

(** X20.  Whatever the name, [create_mask] either raises [ValueError] or
    returns a well-formed monochrome integer array that is square with an odd
    side, every entry of which is 1 or -1; the names are case-sensitive, so
    "Blur3" is refused. *)
Theorem create_mask_shape (name : string) :
  ((exists msg, create_mask name = Raise (ValueError msg)) \/
   (exists m k, create_mask name = Ok m /\ well_formed m /\
      shape m = [2 * k + 1; 2 * k + 1] /\ 0 < k /\ dtype_of m = int_ /\
      Forall (fun v => v = 1 \/ v = -1) (data m))) /\
  (exists msg, create_mask "Blur3" = Raise (ValueError msg)).
Proof.
  split; [|eexists; reflexivity].
  unfold create_mask.
  destruct (String.eqb name "blur3");
    [|destruct (String.eqb name "blur5"); [|destruct (String.eqb name "laplacian")]].
  - right. eexists. exists 1. split; [reflexivity|].
    split; [split; [repeat constructor; lia | reflexivity]|].
    split; [reflexivity|]. split; [lia|]. split; [reflexivity|].
    repeat constructor; (now left) || (now right).
  - right. eexists. exists 2. split; [reflexivity|].
    split; [split; [repeat constructor; lia | reflexivity]|].
    split; [reflexivity|]. split; [lia|]. split; [reflexivity|].
    repeat (constructor; [now left|]). constructor.
  - right. eexists. exists 1. split; [reflexivity|].
    split; [split; [repeat constructor; lia | reflexivity]|].
    split; [reflexivity|]. split; [lia|]. split; [reflexivity|].
    repeat (constructor; [(now left) || (now right)|]). constructor.
  - left. eexists. reflexivity.
Qed.
